(** * django_run.py: signal probes and the Rectangle iteration demo

    A shallow embedding of [django_run.py].  The script is Python glue
    around an external web framework, so the embedding has three layers:

    - a small Python run-time: exceptions with their class, an object store
      for instances and generator frames, [print], [try]/[except Exception],
      the [with] statement and the [for] loop;
    - the framework interface the script calls ([User.objects.create],
      [Profile.objects.create], [Profile.objects.count],
      [transaction.atomic]), as a record of operations, and one in-memory
      instance of it;
    - the script itself: the three receivers, the four probes,
      [run_all_tests], the module entry point and the [Rectangle] class. *)

From Stdlib Require Import ZArith Lia.
From stdpp Require Import base strings gmap list pretty.

(** ** Exceptions *)

(** The classes the script can meet.  [Exception_] is the class the script
    itself raises and names in its handler; the last three derive from
    [BaseException] only. *)
Inductive exc_class : Type :=
  | Exception_
  | StopIteration_
  | AttributeError_
  | TypeError_
  | IntegrityError_
  | OtherException (name : string)
  | KeyboardInterrupt_
  | SystemExit_
  | OtherBaseException (name : string).

(** [isinstance(e, Exception)] on the class of [e]. *)
Definition isinstance_Exception (c : exc_class) : bool :=
  match c with
  | KeyboardInterrupt_ | SystemExit_ | OtherBaseException _ => false
  | _ => true
  end.

Definition is_StopIteration (c : exc_class) : bool :=
  match c with
  | StopIteration_ => true
  | _ => false
  end.

(** An exception object: its class and [str(e)]. *)
Record exc : Type := Exc { exc_cls : exc_class; exc_str : string }.

(** ** The object store *)

(** An address is an index into the store. *)
Abbreviation addr := nat (only parsing).

(** Where the frame of a generator made by [Rectangle.__iter__] stands:
    not started, suspended at the first or at the second [yield], or
    finished. *)
Inductive gen_state : Type :=
  | GEN_CREATED
  | GEN_AT_YIELD_1
  | GEN_AT_YIELD_2
  | GEN_CLOSED.

(** A [Rectangle] instance is its [__dict__]; a generator object holds the
    [self] of its frame and the point where the frame is suspended. *)
Inductive obj : Type :=
  | RectangleObj (dict : gmap string Z)
  | GeneratorObj (self : addr) (st : gen_state).

(** ** Interpreter state and the monad of statements *)

(** [stdout] has one entry per [print] call, oldest first; [heap] is the
    object store, an object's address being its index; [clock] counts the
    seconds spent in [time.sleep]; [ident] is what [threading.get_ident()]
    returns; [interrupt] says that the operator presses the interrupt key
    during the next sleep; [ext] is the state of the external framework. *)
Record world (S : Type) : Type := World {
  stdout : list string;
  heap : list obj;
  clock : Z;
  ident : Z;
  interrupt : bool;
  ext : S
}.
Arguments World {S} _ _ _ _ _ _.
Arguments stdout {S} _.
Arguments heap {S} _.
Arguments clock {S} _.
Arguments ident {S} _.
Arguments interrupt {S} _.
Arguments ext {S} _.

Inductive outcome (A : Type) : Type :=
  | Returns (a : A)
  | Raises (e : exc)
  | OutOfFuel.
Arguments Returns {A} _.
Arguments Raises {A} _.
Arguments OutOfFuel {A}.

Definition M (S A : Type) : Type := world S → outcome A * world S.

#[global] Instance M_ret {S} : MRet (M S) := λ A a w, (Returns a, w).

#[global] Instance M_bind {S} : MBind (M S) := λ A B k m w,
  match m w with
  | (Returns a, w') => k a w'
  | (Raises e, w') => (Raises e, w')
  | (OutOfFuel, w') => (OutOfFuel, w')
  end.

Definition nl : string := String (Ascii.ascii_of_nat 10) EmptyString.

Section Python.
Context {S : Type}.

Definition raise {A} (e : exc) : M S A := λ w, (Raises e, w).

Definition out_of_fuel {A} : M S A := λ w, (OutOfFuel, w).

Definition set_stdout (l : list string) (w : world S) : world S :=
  World l (heap w) (clock w) (ident w) (interrupt w) (ext w).

Definition set_heap (h : list obj) (w : world S) : world S :=
  World (stdout w) h (clock w) (ident w) (interrupt w) (ext w).

Definition set_clock (c : Z) (w : world S) : world S :=
  World (stdout w) (heap w) c (ident w) (interrupt w) (ext w).

Definition set_ext (s : S) (w : world S) : world S :=
  World (stdout w) (heap w) (clock w) (ident w) (interrupt w) s.

(** [print(s)] *)
Definition print (s : string) : M S unit := λ w,
  (Returns tt, set_stdout (stdout w ++ [s]) w).

(** [print(a, b)]: the arguments separated by one space. *)
Definition print2 (a b : string) : M S unit := print (a +:+ " " +:+ b).

(** [time.sleep(n)]: the interrupt key ends the sleep with
    [KeyboardInterrupt]. *)
Definition time_sleep (n : Z) : M S unit := λ w,
  if interrupt w then
    (Raises (Exc KeyboardInterrupt_ EmptyString),
     World (stdout w) (heap w) (clock w) (ident w) false (ext w))
  else (Returns tt, set_clock (clock w + n)%Z w).

(** [threading.get_ident()] *)
Definition threading_get_ident : M S Z := λ w, (Returns (ident w), w).

(** [try: body / except Exception as e: handler e].  An exception whose
    class does not derive from [Exception] passes through. *)
Definition try_except_Exception (body : M S unit) (handler : exc → M S unit)
    : M S unit := λ w,
  match body w with
  | (Raises e, w') =>
      if isinstance_Exception (exc_cls e) then handler e w'
      else (Raises e, w')
  | r => r
  end.

(** [with cm: body], for a context manager given by its [__enter__] and
    its [__exit__]: [__exit__] gets the exception that left the body, if
    any, and says whether to swallow it. *)
Definition leave_with (exit : option exc → M S bool) (body : M S unit)
    : M S unit := λ w,
  match body w with
  | (Returns _, w') => (_ ← exit None; mret tt) w'
  | (Raises e, w') =>
      (swallow ← exit (Some e);
       if (swallow : bool) then mret tt else raise e) w'
  | (OutOfFuel, w') => (OutOfFuel, w')
  end.

Definition with_ (enter : M S unit) (exit : option exc → M S bool)
    (body : M S unit) : M S unit :=
  enter;; leave_with exit body.

(** *** Objects *)

Definition alloc (o : obj) : M S addr := λ w,
  (Returns (length (heap w)), set_heap (heap w ++ [o]) w).

Definition store (a : addr) (o : obj) : M S unit := λ w,
  (Returns tt, set_heap (<[a:=o]> (heap w)) w).

Definition no_attribute (cls k : string) : exc :=
  Exc AttributeError_
      ("'" +:+ cls +:+ "' object has no attribute '" +:+ k +:+ "'").

(** [a.k], for an attribute kept in the instance's [__dict__]. *)
Definition getattr (a : addr) (k : string) : M S Z := λ w,
  match heap w !! a with
  | Some (RectangleObj d) =>
      match d !! k with
      | Some v => (Returns v, w)
      | None => (Raises (no_attribute "Rectangle" k), w)
      end
  | Some (GeneratorObj _ _) => (Raises (no_attribute "generator" k), w)
  | None => (Raises (Exc (OtherBaseException "dangling") EmptyString), w)
  end.

(** [a.k = v] *)
Definition setattr (a : addr) (k : string) (v : Z) : M S unit := λ w,
  match heap w !! a with
  | Some (RectangleObj d) => store a (RectangleObj (<[k:=v]> d)) w
  | Some (GeneratorObj _ _) => (Raises (no_attribute "generator" k), w)
  | None => (Raises (Exc (OtherBaseException "dangling") EmptyString), w)
  end.

(** [a == b] for objects whose class defines no [__eq__]: the inherited
    [object.__eq__] compares identities. *)
Definition object___eq__ (a b : addr) : bool := Nat.eqb a b.

(** *** The Rectangle class (lines 68-75) *)

(** [def __init__(self, length: int, width: int)] *)
Definition Rectangle___init__ (self : addr) (length width : Z) : M S unit :=
  setattr self "length" length;;
  setattr self "width" width.

(** The call [Rectangle(length, width)]: a new instance with an empty
    [__dict__], initialised by [__init__]. *)
Definition Rectangle (length width : Z) : M S addr :=
  self ← alloc (RectangleObj ∅);
  Rectangle___init__ self length width;;
  mret self.

(** [def __iter__(self)]: a generator function, so the call only makes
    the generator object; no statement of the body runs yet. *)
Definition Rectangle___iter__ (self : addr) : M S addr :=
  alloc (GeneratorObj self GEN_CREATED).

(** One resumption of the body up to [yield {key: self.key}]; an
    exception raised on the way finishes the generator. *)
Definition run_to_yield (g self : addr) (key : string) (st' : gen_state)
    : M S (gmap string Z) := λ w,
  match getattr self key w with
  | (Returns v, w') =>
      (store g (GeneratorObj self st');; mret {[ key := v ]}) w'
  | (Raises e, w') => (store g (GeneratorObj self GEN_CLOSED);; raise e) w'
  | (OutOfFuel, w') => (OutOfFuel, w')
  end.

(** [next(g)] on a generator of [Rectangle.__iter__]:
<<
    yield {'length': self.length}
    yield {'width': self.width}
>> *)
Definition next (g : addr) : M S (gmap string Z) := λ w,
  match heap w !! g with
  | Some (GeneratorObj self GEN_CREATED) =>
      run_to_yield g self "length" GEN_AT_YIELD_1 w
  | Some (GeneratorObj self GEN_AT_YIELD_1) =>
      run_to_yield g self "width" GEN_AT_YIELD_2 w
  | Some (GeneratorObj self GEN_AT_YIELD_2) =>
      (store g (GeneratorObj self GEN_CLOSED);;
       raise (Exc StopIteration_ EmptyString)) w
  | Some (GeneratorObj self GEN_CLOSED) =>
      (Raises (Exc StopIteration_ EmptyString), w)
  | Some (RectangleObj _) =>
      (Raises (Exc TypeError_ "'Rectangle' object is not an iterator"), w)
  | None => (Raises (Exc (OtherBaseException "dangling") EmptyString), w)
  end.

(** [for item in it: body item], for an iterator [it]: [StopIteration]
    ends the loop, any other exception leaves it. *)
Fixpoint for_in (fuel : nat) (it : addr) (body : gmap string Z → M S unit)
    : M S unit :=
  match fuel with
  | O => out_of_fuel
  | Datatypes.S fuel' => λ w,
      match next it w with
      | (Returns item, w') => (body item;; for_in fuel' it body) w'
      | (Raises e, w') =>
          if is_StopIteration (exc_cls e) then (Returns tt, w')
          else (Raises e, w')
      | (OutOfFuel, w') => (OutOfFuel, w')
      end
  end.

(** [list(it)] for an iterator [it]. *)
Fixpoint list_of (fuel : nat) (it : addr) : M S (list (gmap string Z)) :=
  match fuel with
  | O => out_of_fuel
  | Datatypes.S fuel' => λ w,
      match next it w with
      | (Returns item, w') =>
          (items ← list_of fuel' it; mret (item :: items)) w'
      | (Raises e, w') =>
          if is_StopIteration (exc_cls e) then (Returns [], w')
          else (Raises e, w')
      | (OutOfFuel, w') => (OutOfFuel, w')
      end
  end.

(** [repr] of a dict with integer values, as [print] shows it. *)
Definition repr_item (kv : string * Z) : string :=
  "'" +:+ kv.1 +:+ "': " +:+ pretty kv.2.

Fixpoint join (sep : string) (l : list string) : string :=
  match l with
  | [] => EmptyString
  | [s] => s
  | s :: l' => s +:+ sep +:+ join sep l'
  end.

Definition repr_dict (d : gmap string Z) : string :=
  "{" +:+ join ", " (repr_item <$> map_to_list d) +:+ "}".

End Python.

(** ** The framework, as the script sees it *)

(** A row of the user table, and the model instance handed to receivers. *)
Record User : Type := mkUser { pk : Z; username : string }.

(** The operations of the external framework that the script calls.  How
    they behave is the framework's business: every one of them may return
    or raise, and may change the whole interpreter state.
    [User_objects_create] gets the receivers connected to [post_save] for
    [User], in the order of connection. *)
Record Framework (S : Type) : Type := {
  User_objects_create : list (User → M S unit) → string → M S User;
  Profile_objects_create : User → M S unit;
  Profile_objects_count : M S Z;
  atomic___enter__ : M S unit;
  atomic___exit__ : option exc → M S bool
}.
Arguments User_objects_create {S} _ _ _.
Arguments Profile_objects_create {S} _ _.
Arguments Profile_objects_count {S} _.
Arguments atomic___enter__ {S} _.
Arguments atomic___exit__ {S} _ _.

(** ** The script *)

Section Script.
Context {S : Type}.
Variable fw : Framework S.

(** Lines 15-19. *)
Definition slow_signal_handler (instance : User) : M S unit :=
  print "[Signal] Started processing...";;
  time_sleep 3;;
  print "[Signal] Finished processing.".

(** Lines 29-31. *)
Definition thread_check (instance : User) : M S unit :=
  i ← threading_get_ident;
  print ("[Signal] Thread ID: " +:+ pretty i).

(** Lines 47-51. *)
Definition create_profile (instance : User) : M S unit :=
  Profile_objects_create fw instance;;
  print "[Signal] Profile created inside same transaction".

(** What the three [@receiver(post_save, sender=User)] decorators have
    connected once the module is loaded, in the order of the file. *)
Definition post_save_receivers : list (User → M S unit) :=
  [slow_signal_handler; thread_check; create_profile].

(** Lines 21-25. *)
Definition test_synchronous_signal : M S unit :=
  print (nl +:+ "=== Test 1: Synchronous Signal ===");;
  print "Creating user...";;
  _ ← User_objects_create fw post_save_receivers "sync_test_user";
  print ("User created successfully — after signal completed." +:+ nl).

(** Lines 33-37. *)
Definition test_thread_signal : M S unit :=
  print (nl +:+ "=== Test 2: Thread Check ===");;
  i ← threading_get_ident;
  print ("[Main] Thread ID: " +:+ pretty i);;
  _ ← User_objects_create fw post_save_receivers "thread_test_user";
  print ("Both thread IDs should match — same thread." +:+ nl).

(** Line 59: [Exception("Force rollback after signal")]. *)
Definition forced_error : exc :=
  Exc Exception_ "Force rollback after signal".

(** Lines 56-59: the body of the [try]. *)
Definition atomic_block : M S unit :=
  with_ (atomic___enter__ fw) (atomic___exit__ fw)
    (user ← User_objects_create fw post_save_receivers "rollback_user";
     raise forced_error).

(** Lines 63-64: what follows the [try] statement. *)
Definition report_profiles : M S unit :=
  n ← Profile_objects_count fw;
  print2 "Profiles in DB after rollback:" (pretty n);;
  print ("If 0 → Signal ran in same transaction." +:+ nl).

(** Lines 53-64. *)
Definition test_transaction_signal : M S unit :=
  print (nl +:+ "=== Test 3: Transaction Behavior ===");;
  try_except_Exception atomic_block
    (λ e, print2 "[Main] Exception caught:" (exc_str e));;
  report_profiles.

(** Lines 77-82. *)
Definition test_rectangle_iteration (fuel : nat) : M S unit :=
  print (nl +:+ "=== Test 4: Custom Rectangle Class ===");;
  rect ← Rectangle 10 5;
  it ← Rectangle___iter__ rect;
  for_in fuel it (λ item, print (repr_dict item));;
  print EmptyString.

(** Lines 86-90. *)
Definition run_all_tests (fuel : nat) : M S unit :=
  test_synchronous_signal;;
  test_thread_signal;;
  test_transaction_signal;;
  test_rectangle_iteration fuel.

(** Lines 93-97: the statements under [if __name__ == "__main__":]. *)
Definition usage : list string :=
  [ ">>> Django Signals and Python Custom Class Tests <<<";
    "Run these functions individually inside Django shell:" +:+ nl;
    "    from yourapp.django_signal_tests import run_all_tests";
    "    run_all_tests()" +:+ nl ].

Definition module_main (__name__ : string) : M S unit :=
  if decide (__name__ = "__main__") then
    print ">>> Django Signals and Python Custom Class Tests <<<";;
    print ("Run these functions individually inside Django shell:" +:+ nl);;
    print "    from yourapp.django_signal_tests import run_all_tests";;
    print ("    run_all_tests()" +:+ nl)
  else mret tt.

End Script.

(** ** An in-memory framework *)

(** Modelled from the spec: the data store and the transaction manager are
    external to the script.  The model follows the glossary: a transactional
    scope is a block whose writes are all discarded when it fails, usernames
    are unique, a profile refers to one user, and a signal is handled by the
    connected receivers when the record is written.  Whether the receivers'
    writes belong to the caller's transaction is what the third probe asks,
    so it is a parameter, [in_txn]: when it is [false] the receivers write
    through a connection of their own, which commits at once. *)
Record tables : Type := Tables {
  auth_user : list User;
  profile : list Z      (* the user_id of each profile row *)
}.

(** [db] is what queries see; [savepoints] holds the tables as they were
    when each open [atomic] block was entered, innermost first; [next_pk] is
    the key the next user gets; [own_connection] is set while receivers
    write outside the caller's transaction. *)
Record datastore : Type := Datastore {
  db : tables;
  savepoints : list tables;
  next_pk : Z;
  own_connection : bool
}.

Definition add_user (u : User) (t : tables) : tables :=
  Tables (auth_user t ++ [u]) (profile t).

Definition add_profile (user_id : Z) (t : tables) : tables :=
  Tables (auth_user t) (profile t ++ [user_id]).

(** The number of profile rows that refer to the user with key [user_id]. *)
Definition profiles_of (user_id : Z) (t : tables) : nat :=
  length (filter (λ x, x = user_id) (profile t)).

(** Modelled from the spec: a write of the external data layer.  It goes to
    the visible tables, and, on a connection of its own, to what every
    enclosing transaction would roll back to. *)
Definition write (f : tables → tables) : M datastore unit := λ w,
  let s := ext w in
  let sp := if own_connection s then f <$> savepoints s else savepoints s in
  (Returns tt,
   set_ext (Datastore (f (db s)) sp (next_pk s) (own_connection s)) w).

Definition set_own_connection (b : bool) (w : world datastore)
    : world datastore :=
  let s := ext w in
  set_ext (Datastore (db s) (savepoints s) (next_pk s) b) w.

(** Modelled from the spec: the framework's dispatch of a signal.  The
    receivers are called one after the other, in the caller's thread; the
    first exception ends the dispatch. *)
Fixpoint send (receivers : list (User → M datastore unit)) (instance : User)
    : M datastore unit :=
  match receivers with
  | [] => mret tt
  | r :: rs => r instance;; send rs instance
  end.

(** Modelled from the spec: the dispatch of "record saved", inside the
    caller's transaction or, when [in_txn] is [false], on a connection of
    the receivers' own. *)
Definition post_save_send (in_txn : bool)
    (receivers : list (User → M datastore unit)) (instance : User)
    : M datastore unit := λ w,
  if in_txn then send receivers instance w
  else
    let old := own_connection (ext w) in
    let (r, w') := send receivers instance (set_own_connection true w) in
    (r, set_own_connection old w').

Definition take_pk : M datastore Z := λ w,
  let s := ext w in
  (Returns (next_pk s),
   set_ext (Datastore (db s) (savepoints s) (next_pk s + 1)%Z
              (own_connection s)) w).

Definition username_taken : exc :=
  Exc IntegrityError_ "UNIQUE constraint failed: auth_user.username".

Definition profile_taken : exc :=
  Exc IntegrityError_ "UNIQUE constraint failed: profile.user_id".

(** Modelled from the spec: [User.objects.create].  A taken username is a
    uniqueness violation; otherwise the row is written and the signal
    dispatched before the call returns. *)
Definition mem_User_objects_create (in_txn : bool)
    (receivers : list (User → M datastore unit)) (name : string)
    : M datastore User := λ w,
  if decide (name ∈ username <$> auth_user (db (ext w))) then
    (Raises username_taken, w)
  else
    (k ← take_pk;
     write (add_user (mkUser k name));;
     post_save_send in_txn receivers (mkUser k name);;
     mret (mkUser k name)) w.

(** Modelled from the spec: [Profile.objects.create], one profile per
    user. *)
Definition mem_Profile_objects_create (u : User) : M datastore unit := λ w,
  if decide (pk u ∈ profile (db (ext w))) then
    (Raises profile_taken, w)
  else write (add_profile (pk u)) w.

(** Modelled from the spec: [Profile.objects.count()], all profile rows. *)
Definition mem_Profile_objects_count : M datastore Z := λ w,
  (Returns (Z.of_nat (length (profile (db (ext w))))), w).

(** Modelled from the spec: entering [transaction.atomic()] sets a
    savepoint. *)
Definition mem_atomic___enter__ : M datastore unit := λ w,
  let s := ext w in
  (Returns tt,
   set_ext (Datastore (db s) (db s :: savepoints s) (next_pk s)
              (own_connection s)) w).

(** Modelled from the spec: leaving [transaction.atomic()].  Commit when
    the body returned, roll back to the savepoint when an exception left
    it; the exception is never swallowed. *)
Definition mem_atomic___exit__ (e : option exc) : M datastore bool := λ w,
  let s := ext w in
  match savepoints s, e with
  | [], _ => (Returns false, w)
  | _ :: sp, None =>
      (Returns false,
       set_ext (Datastore (db s) sp (next_pk s) (own_connection s)) w)
  | t :: sp, Some _ =>
      (Returns false, set_ext (Datastore t sp (next_pk s) (own_connection s)) w)
  end.

(** Modelled from the spec: the external framework as one value of the
    interface, for either answer to the third probe's question. *)
Definition memory_framework (in_txn : bool) : Framework datastore := {|
  User_objects_create := mem_User_objects_create in_txn;
  Profile_objects_create := mem_Profile_objects_create;
  Profile_objects_count := mem_Profile_objects_count;
  atomic___enter__ := mem_atomic___enter__;
  atomic___exit__ := mem_atomic___exit__
|}.

(** An interpreter that has printed nothing and holds no object, with no
    framework behind it. *)
Definition idle_world : world unit := World [] [] 0 0 false tt.

(** An interpreter that has printed nothing, on an empty data store. *)
Definition fresh_world : world datastore :=
  World [] [] 0 140735 false (Datastore (Tables [] []) [] 1 false).

(** ** Clients of the iteration protocol *)

Section Clients.
Context {S : Type}.

(** The [__dict__] that [__init__] leaves behind. *)
Definition rect_dict (length width : Z) : gmap string Z :=
  <["width" := width]> (<["length" := length]> ∅).

(** What a caller can do with the iteration protocol: ask an object for a
    new iterator, or advance an iterator it holds. *)
Inductive iter_op : Type :=
  | Op_iter (r : addr)
  | Op_next (g : addr).

(** One operation, whatever its outcome (the caller may catch what is
    raised and go on). *)
Definition run_op (op : iter_op) (w : world S) : world S :=
  match op with
  | Op_iter r => (Rectangle___iter__ r w).2
  | Op_next g => (next g w).2
  end.

Definition run_ops (ops : list iter_op) (w : world S) : world S :=
  foldl (λ w op, run_op op w) w ops.

(** Two iterators advanced in an arbitrary interleaving: [true] advances
    the first, [false] the second.  The result lists what each [next]
    gave, in the order of the calls. *)
Fixpoint interleave (sched : list bool) (g1 g2 : addr) (w : world S)
    : list (bool * outcome (gmap string Z)) * world S :=
  match sched with
  | [] => ([], w)
  | b :: sched' =>
      let (o, w') := next (if b then g1 else g2) w in
      let (os, w'') := interleave sched' g1 g2 w' in
      ((b, o) :: os, w'')
  end.

(** What the [k]-th [next] (counting from 0) on an iterator over a
    rectangle of the given sides is to give. *)
Definition kth_next (length width : Z) (k : nat)
    : outcome (gmap string Z) :=
  match k with
  | 0 => Returns {[ "length" := length ]}
  | 1 => Returns {[ "width" := width ]}
  | _ => Raises (Exc StopIteration_ EmptyString)
  end.

(** The outcomes one of the two iterators saw. *)
Definition seen_by (b : bool) (os : list (bool * outcome (gmap string Z)))
    : list (outcome (gmap string Z)) :=
  snd <$> filter (λ p, p.1 = b) os.

(** The frame state after [k] calls of [next]. *)
Definition state_after (k : nat) : gen_state :=
  match k with
  | 0 => GEN_CREATED
  | 1 => GEN_AT_YIELD_1
  | 2 => GEN_AT_YIELD_2
  | _ => GEN_CLOSED
  end.

(** The world after the [k]-th [next] on the generator [g] over [r]:
    only the frame of [g] has moved. *)
Definition advance (g r : addr) (k : nat) (w : world S) : world S :=
  set_heap (<[g := GeneratorObj r (state_after (Datatypes.S k))]> (heap w)) w.

(** The spec's reading of [run_all_tests]: the tests one after the other,
    nothing passed between them, the first that does not return ends the
    run. *)
Fixpoint in_order (tests : list (M S unit)) (w : world S)
    : outcome unit * world S :=
  match tests with
  | [] => (Returns tt, w)
  | t :: ts =>
      match t w with
      | (Returns _, w') => in_order ts w'
      | r => r
      end
  end.

End Clients.

(** ** Worlds and lines used in the statements *)

(** The interpreter after [lines] have been printed. *)
Definition printed {S : Type} (lines : list string) (w : world S) : world S :=
  set_stdout (stdout w ++ lines) w.

Definition header_1 : string := nl +:+ "=== Test 1: Synchronous Signal ===".
Definition header_3 : string := nl +:+ "=== Test 3: Transaction Behavior ===".

Definition caught_line (e : exc) : string :=
  "[Main] Exception caught: " +:+ exc_str e.

Definition count_line (n : Z) : string :=
  "Profiles in DB after rollback: " +:+ pretty n.

Definition verdict_line : string :=
  "If 0 → Signal ran in same transaction." +:+ nl.

(** What the receivers print for one saved user, on thread [i]. *)
Definition signal_lines (i : Z) : list string :=
  [ "[Signal] Started processing...";
    "[Signal] Finished processing.";
    "[Signal] Thread ID: " +:+ pretty i;
    "[Signal] Profile created inside same transaction" ].

(** The in-memory store after a user with a new name has been created and
    the three receivers have run. *)
Definition created (in_txn : bool) (name : string) (s : datastore)
    : datastore :=
  let k := next_pk s in
  Datastore
    (add_profile k (add_user (mkUser k name) (db s)))
    (if in_txn then savepoints s else add_profile k <$> savepoints s)
    (k + 1) false.

(** The in-memory world after one complete run of all the tests. *)
Definition world_after_one_run : world datastore :=
  (run_all_tests (memory_framework true) 3 fresh_world).2.

(** The empty in-memory store, with the operator about to press the
    interrupt key. *)
Definition interrupted_world : world datastore :=
  World [] [] 0 140735 true (Datastore (Tables [] []) [] 1 false).

(** An in-memory world with a stray profile row that refers to the key
    the next user will get. *)
Definition world_with_stray_profile : world datastore :=
  World [] [] 0 140735 false (Datastore (Tables [] [1%Z]) [] 1 false).

(** The stages of the transaction probe on the empty in-memory store: the
    scope entered, the user created, the scope left by the forced error,
    the profiles counted. *)
Definition fresh_entered : world datastore :=
  (atomic___enter__ (memory_framework true)
     (printed [header_3] fresh_world)).2.

Definition fresh_created : world datastore :=
  (User_objects_create (memory_framework true)
     (post_save_receivers (memory_framework true)) "rollback_user"
     fresh_entered).2.

Definition fresh_rolled_back : world datastore :=
  (atomic___exit__ (memory_framework true) (Some forced_error)
     fresh_created).2.

Definition fresh_counted : world datastore :=
  (Profile_objects_count (memory_framework true)
     (printed [caught_line forced_error] fresh_rolled_back)).2.

(** The same probe on the store with the stray profile: the block left by
    the receiver's error, the profiles counted. *)
Definition stray_left : world datastore :=
  (atomic_block (memory_framework true)
     (printed [header_3] world_with_stray_profile)).2.

Definition stray_counted : world datastore :=
  (Profile_objects_count (memory_framework true)
     (printed [caught_line profile_taken] stray_left)).2.

(** ** Further operations and lines *)

Section Deletion.
Context {S : Type}.

(** [del a.k], for an attribute kept in the instance's [__dict__]. *)
Definition delattr (a : addr) (k : string) : M S unit := λ w,
  match heap w !! a with
  | Some (RectangleObj d) =>
      match d !! k with
      | Some _ => store a (RectangleObj (delete k d)) w
      | None => (Raises (no_attribute "Rectangle" k), w)
      end
  | Some (GeneratorObj _ _) => (Raises (no_attribute "generator" k), w)
  | None => (Raises (Exc (OtherBaseException "dangling") EmptyString), w)
  end.

(** [k] calls of [next(g)], whatever they give. *)
Definition next_times (k : nat) (g : addr) (w : world S) : world S :=
  run_ops (replicate k (Op_next g)) w.

(** A context manager that never swallows the exception it is given. *)
Definition never_swallows (fw : Framework S) : Prop :=
  ∀ e w r w', atomic___exit__ fw e w = (Returns r, w') → r = false.

End Deletion.

Definition header_2 : string := nl +:+ "=== Test 2: Thread Check ===".
Definition header_4 : string :=
  nl +:+ "=== Test 4: Custom Rectangle Class ===".

Definition created_line : string :=
  "User created successfully — after signal completed." +:+ nl.

Definition main_thread_line (i : Z) : string :=
  "[Main] Thread ID: " +:+ pretty i.

Definition same_thread_line : string :=
  "Both thread IDs should match — same thread." +:+ nl.

(** The in-memory store is in order: no receiver is writing on a
    connection of its own, and every profile refers to a key that has
    been handed out. *)
Definition store_ok (s : datastore) : Prop :=
  own_connection s = false ∧
  Forall (λ x, (x < next_pk s)%Z) (profile (db s)).

(** The in-memory store after the transaction probe has run on a store
    where the name was free: one key is used up; the user is gone again,
    and the profile with it exactly when the receivers wrote inside the
    transaction. *)
Definition rolled_back (in_txn : bool) (s : datastore) : datastore :=
  let k := next_pk s in
  if in_txn then Datastore (db s) (savepoints s) (k + 1) false
  else
    Datastore (add_profile k (db s)) (add_profile k <$> savepoints s)
      (k + 1) false.

(** The in-memory world in which the interrupted transaction probe ends. *)
Definition interrupted_left : world datastore :=
  (test_transaction_signal (memory_framework true) interrupted_world).2.

(** What [run_all_tests] prints on the in-memory framework when the three
    names are free: [i] is the thread id and [n] the count that the third
    probe finds. *)
Definition full_run_lines (i n : Z) : list string :=
  [ header_1; "Creating user..." ] ++ signal_lines i ++ [ created_line ] ++
  [ header_2; main_thread_line i ] ++ signal_lines i ++ [ same_thread_line ] ++
  [ header_3 ] ++ signal_lines i ++
  [ caught_line forced_error; count_line n; verdict_line ] ++
  [ header_4; "{'length': 10}"; "{'width': 5}"; EmptyString ].

(** The in-memory store after a creation that was interrupted while the
    first receiver slept: the user row is written, no profile is. *)
Definition interrupted_creation (name : string) (s : datastore) : datastore :=
  Datastore (add_user (mkUser (next_pk s) name) (db s)) (savepoints s)
    (next_pk s + 1) false.

(** [KeyboardInterrupt()], as the interrupt key raises it. *)
Definition keyboard_interrupt : exc := Exc KeyboardInterrupt_ EmptyString.

(** ** Loading the module (lines 7-51) *)

(** What the statements above the entry point ask of the framework while
    the module is loaded: the imports from the framework's packages, the
    [@receiver(post_save, sender=User)] registrations and the creation of
    the model class [Profile].  Each may return or raise, as the framework
    decides. *)
Record Loader (S : Type) : Type := {
  import_from : string → M S unit;
  receiver_connect : (User → M S unit) → M S unit;
  define_Profile : M S unit
}.
Arguments import_from {S} _ _.
Arguments receiver_connect {S} _ _.
Arguments define_Profile {S} _.

Section Module.
Context {S : Type}.
Variable ld : Loader S.
Variable fw : Framework S.

(** Lines 7-51, in the order of the file.  [import time] and
    [import threading] (lines 7-8) come from the standard library and are
    left out; a [def] only binds a name. *)
Definition module_level : M S unit :=
  import_from ld "django.db";;
  import_from ld "django.db.models.signals";;
  import_from ld "django.dispatch";;
  import_from ld "django.contrib.auth.models";;
  receiver_connect ld slow_signal_handler;;
  receiver_connect ld thread_check;;
  import_from ld "django.db";;
  define_Profile ld;;
  receiver_connect ld (create_profile fw).

(** The whole file, run under the module name [__name__]: the statements
    of lines 7-51, then the guarded block of lines 93-97. *)
Definition module_body (__name__ : string) : M S unit :=
  module_level;;
  module_main __name__.

End Module.

(** Modelled from the spec: missing external configuration.  Without
    settings the framework's packages can be imported up to the one that
    needs the installed applications, the import of line 12. *)
Definition improperly_configured : exc :=
  Exc (OtherException "ImproperlyConfigured")
    ("Requested setting INSTALLED_APPS, but settings are not configured. " +:+
     "You must either define the environment variable " +:+
     "DJANGO_SETTINGS_MODULE or call settings.configure() before " +:+
     "accessing settings.").

Definition unconfigured_loader {S : Type} : Loader S := {|
  import_from name :=
    if decide (name = "django.contrib.auth.models")
    then raise improperly_configured else mret tt;
  receiver_connect _ := mret tt;
  define_Profile := mret tt
|}.

(** Modelled from the spec: a configured framework in which the module's
    models are installed; loading the module changes nothing the script
    can see. *)
Definition configured_loader {S : Type} : Loader S := {|
  import_from _ := mret tt;
  receiver_connect _ := mret tt;
  define_Profile := mret tt
|}.

(** The largest number of digits [str] converts an int to by default. *)
Definition int_max_str_digits : Z := 4300.

(** [n] is an int that [print] shows in decimal. *)
Definition printable (n : Z) : Prop :=
  (Z.abs n < 10 ^ int_max_str_digits)%Z.

(** The in-memory store with one user that has no profile yet, as an
    interrupted first probe leaves it. *)
Definition world_with_user_only : world datastore :=
  World [] [] 0 140735 false
    (Datastore (Tables [mkUser 1 "sync_test_user"] []) [] 2 false).

(** * Properties *)

(** ** The object store *)

Section HeapFacts.
Context {S : Type}.
Implicit Types (w : world S) (h : list obj) (a g r : addr).

Lemma lookup_alloc h (o : obj) : (h ++ [o]) !! length h = Some o.
Proof. by rewrite list_lookup_middle. Qed.

Lemma insert_alloc h (o o' : obj) : <[length h := o']> (h ++ [o]) = h ++ [o'].
Proof.
  rewrite insert_app_r_alt; [|done]. by rewrite Nat.sub_diag.
Qed.

Lemma Rectangle_returns w (L W : Z) :
  Rectangle L W w =
    (Returns (length (heap w)),
     set_heap (heap w ++ [RectangleObj (rect_dict L W)]) w).
Proof.
  unfold Rectangle, Rectangle___init__, alloc, setattr, store.
  unfold mbind, M_bind, mret, M_ret. cbn [heap set_heap].
  rewrite lookup_alloc. cbn [heap set_heap].
  rewrite insert_alloc, lookup_alloc, insert_alloc.
  reflexivity.
Qed.

Lemma rect_dict_length (L W : Z) : rect_dict L W !! "length" = Some L.
Proof.
  unfold rect_dict. rewrite lookup_insert_ne; [|done].
  apply lookup_insert_eq.
Qed.

Lemma rect_dict_width (L W : Z) : rect_dict L W !! "width" = Some W.
Proof. unfold rect_dict. apply lookup_insert_eq. Qed.

Lemma rect_dict_dom (L W : Z) :
  dom (rect_dict L W) = ({[ "length"; "width" ]} : gset string).
Proof. unfold rect_dict. rewrite !dom_insert_L. set_solver. Qed.

End HeapFacts.

(** ** One step of the generator *)

Section GeneratorFacts.
Context {S : Type}.
Implicit Types (w : world S) (a g r : addr) (k : nat).

Lemma set_heap_same w : set_heap (heap w) w = w.
Proof. by destruct w. Qed.

Lemma next_kth w g r (L W : Z) k :
  heap w !! r = Some (RectangleObj (rect_dict L W)) →
  heap w !! g = Some (GeneratorObj r (state_after k)) →
  next g w = (kth_next L W k, advance g r k w).
Proof.
  intros Hr Hg. unfold next, advance. rewrite Hg.
  destruct k as [|[|[|k]]]; cbn [state_after kth_next].
  - unfold run_to_yield, getattr. rewrite Hr, rect_dict_length. reflexivity.
  - unfold run_to_yield, getattr. rewrite Hr, rect_dict_width. reflexivity.
  - reflexivity.
  - rewrite list_insert_id by exact Hg. by rewrite set_heap_same.
Qed.

Lemma advance_lookup_self w g r k o :
  heap w !! g = Some o →
  heap (advance g r k w) !! g =
    Some (GeneratorObj r (state_after (Datatypes.S k))).
Proof.
  intros Hg. unfold advance. cbn [heap set_heap].
  apply list_lookup_insert_eq. by eapply lookup_lt_Some.
Qed.

Lemma advance_lookup_other w g r k a :
  a ≠ g → heap (advance g r k w) !! a = heap w !! a.
Proof.
  intros Hne. unfold advance. cbn [heap set_heap].
  by apply list_lookup_insert_ne.
Qed.

(** [next] never touches a [Rectangle] instance, whatever it is applied
    to and whatever it gives. *)
Lemma next_keeps_instances w g a d :
  heap w !! a = Some (RectangleObj d) →
  heap (next g w).2 !! a = Some (RectangleObj d).
Proof.
  intros Ha. unfold next.
  destruct (heap w !! g) as [[dg|self st]|] eqn:Hg; [done| |done].
  assert (a ≠ g) as Hne by (intros ->; congruence).
  destruct st; unfold run_to_yield, store, raise, mbind, M_bind, mret, M_ret.
  - destruct (getattr self "length" w) as [[v|e|] w'] eqn:Hget;
      unfold getattr in Hget;
      destruct (heap w !! self) as [[ds|? ?]|];
      try destruct (ds !! "length"); simplify_eq; cbn [snd heap set_heap];
      by rewrite ?list_lookup_insert_ne.
  - destruct (getattr self "width" w) as [[v|e|] w'] eqn:Hget;
      unfold getattr in Hget;
      destruct (heap w !! self) as [[ds|? ?]|];
      try destruct (ds !! "width"); simplify_eq; cbn [snd heap set_heap];
      by rewrite ?list_lookup_insert_ne.
  - cbn [snd heap set_heap]. by rewrite list_lookup_insert_ne.
  - done.
Qed.

Lemma iter_keeps_objects w r a o :
  heap w !! a = Some o →
  heap (Rectangle___iter__ r w).2 !! a = Some o.
Proof.
  intros Ha. unfold Rectangle___iter__, alloc. cbn [snd heap set_heap].
  by apply lookup_app_l_Some.
Qed.

Lemma run_ops_keeps_instances ops w a d :
  heap w !! a = Some (RectangleObj d) →
  heap (run_ops ops w) !! a = Some (RectangleObj d).
Proof.
  revert w. induction ops as [|op ops IH]; intros w Ha; [done|].
  unfold run_ops. cbn [foldl]. apply IH.
  destruct op as [r|g]; cbn [run_op].
  - by apply iter_keeps_objects.
  - by apply next_keeps_instances.
Qed.

Lemma getattr_instance w a d key v :
  heap w !! a = Some (RectangleObj d) → d !! key = Some v →
  getattr a key w = (Returns v, w).
Proof. intros Ha Hk. unfold getattr. by rewrite Ha, Hk. Qed.

End GeneratorFacts.

(** ** Whole iterations *)

Section IterationFacts.
Context {S : Type}.
Implicit Types (w : world S) (a g r : addr) (k : nat).

Lemma advance_thrice w g r :
  advance g r 2 (advance g r 1 (advance g r 0 w)) =
    set_heap (<[g := GeneratorObj r GEN_CLOSED]> (heap w)) w.
Proof.
  unfold advance. cbn [heap set_heap state_after].
  rewrite !list_insert_insert_eq. by destruct w.
Qed.

(** [list(g)] on a generator that has not started. *)
Lemma list_of_generator w g r (L W : Z) fuel :
  3 ≤ fuel →
  heap w !! r = Some (RectangleObj (rect_dict L W)) →
  heap w !! g = Some (GeneratorObj r GEN_CREATED) →
  list_of fuel g w =
    (Returns [ {[ "length" := L ]}; {[ "width" := W ]} ],
     set_heap (<[g := GeneratorObj r GEN_CLOSED]> (heap w)) w).
Proof.
  intros Hfuel Hr Hg.
  assert (r ≠ g) as Hne by (intros ->; congruence).
  destruct fuel as [|[|[|fuel]]]; [lia..|]. clear Hfuel.
  cbn [list_of]. rewrite (next_kth w g r L W 0 Hr Hg). cbn [kth_next].
  unfold mbind at 1, M_bind at 1.
  pose proof (advance_lookup_self w g r 0 _ Hg) as Hg1.
  assert (heap (advance g r 0 w) !! r = Some (RectangleObj (rect_dict L W)))
    as Hr1 by (by rewrite advance_lookup_other).
  rewrite (next_kth _ g r L W 1 Hr1 Hg1). cbn [kth_next].
  unfold mbind at 1, M_bind at 1.
  pose proof (advance_lookup_self _ g r 1 _ Hg1) as Hg2.
  assert (heap (advance g r 1 (advance g r 0 w)) !! r
          = Some (RectangleObj (rect_dict L W)))
    as Hr2 by (by rewrite advance_lookup_other).
  rewrite (next_kth _ g r L W 2 Hr2 Hg2). cbn [kth_next exc_cls].
  cbn [is_StopIteration mret M_ret]. by rewrite advance_thrice.
Qed.

(** The same for the [for] loop: the body runs on the two mappings, in
    order, and then the loop ends. *)
Lemma for_in_generator w g r (L W : Z) fuel :
  3 ≤ fuel →
  heap w !! r = Some (RectangleObj (rect_dict L W)) →
  heap w !! g = Some (GeneratorObj r GEN_CREATED) →
  for_in fuel g (λ item, print (repr_dict item)) w =
    (Returns tt,
     set_stdout (stdout w ++ [repr_dict {[ "length" := L ]};
                              repr_dict {[ "width" := W ]}])
       (set_heap (<[g := GeneratorObj r GEN_CLOSED]> (heap w)) w)).
Proof.
  intros Hfuel Hr Hg.
  assert (r ≠ g) as Hne by (intros ->; congruence).
  destruct fuel as [|[|[|fuel]]]; [lia..|]. clear Hfuel.
  cbn [for_in]. rewrite (next_kth w g r L W 0 Hr Hg). cbn [kth_next].
  unfold mbind at 1, M_bind at 1, print at 1.
  pose proof (advance_lookup_self w g r 0 _ Hg) as Hg1.
  assert (heap (advance g r 0 w) !! r = Some (RectangleObj (rect_dict L W)))
    as Hr1 by (by rewrite advance_lookup_other).
  set (w1 := set_stdout _ (advance g r 0 w)).
  assert (heap w1 = heap (advance g r 0 w)) as Hw1 by done.
  rewrite <- Hw1 in Hg1, Hr1.
  rewrite (next_kth w1 g r L W 1 Hr1 Hg1). cbn [kth_next].
  unfold mbind at 1, M_bind at 1, print at 1.
  pose proof (advance_lookup_self _ g r 1 _ Hg1) as Hg2.
  assert (heap (advance g r 1 w1) !! r = Some (RectangleObj (rect_dict L W)))
    as Hr2 by (by rewrite advance_lookup_other).
  set (w2 := set_stdout _ (advance g r 1 w1)).
  assert (heap w2 = heap (advance g r 1 w1)) as Hw2 by done.
  rewrite <- Hw2 in Hg2, Hr2.
  rewrite (next_kth w2 g r L W 2 Hr2 Hg2). cbn [kth_next exc_cls].
  cbn [is_StopIteration]. f_equal.
  subst w2 w1. unfold advance, set_stdout, set_heap.
  cbn [heap stdout clock ident interrupt ext state_after].
  rewrite !list_insert_insert_eq, <- app_assoc. reflexivity.
Qed.

(** Two generators over one rectangle, advanced in any interleaving:
    each sees its own sequence, from where it stands. *)
Lemma interleave_independent sched : ∀ w g1 g2 r (L W : Z) k1 k2,
  g1 ≠ g2 →
  heap w !! r = Some (RectangleObj (rect_dict L W)) →
  heap w !! g1 = Some (GeneratorObj r (state_after k1)) →
  heap w !! g2 = Some (GeneratorObj r (state_after k2)) →
  seen_by true (interleave sched g1 g2 w).1 =
    kth_next L W <$> seq k1 (length (filter (λ x, x = true) sched)) ∧
  seen_by false (interleave sched g1 g2 w).1 =
    kth_next L W <$> seq k2 (length (filter (λ x, x = false) sched)).
Proof.
  induction sched as [|b sched IH]; intros w g1 g2 r L W k1 k2 Hne Hr H1 H2;
    [done|].
  assert (r ≠ g1) as Hr1 by (intros ->; congruence).
  assert (r ≠ g2) as Hr2 by (intros ->; congruence).
  cbn [interleave]. destruct b.
  - rewrite (next_kth w g1 r L W k1 Hr H1).
    destruct (interleave sched g1 g2 (advance g1 r k1 w)) as [os w'] eqn:Hrest.
    destruct (IH (advance g1 r k1 w) g1 g2 r L W (Datatypes.S k1) k2) as [IH1 IH2];
      [done| by rewrite advance_lookup_other
       | by eapply advance_lookup_self
       | by rewrite advance_lookup_other |].
    rewrite Hrest in IH1, IH2. cbn [fst] in *.
    unfold seen_by in *. split.
    + rewrite filter_cons_True by done.
      rewrite (filter_cons_True (λ x, x = true)) by done.
      cbn [length seq fmap list_fmap snd]. by rewrite IH1.
    + rewrite filter_cons_False by done.
      rewrite (filter_cons_False (λ x, x = false)) by done.
      exact IH2.
  - rewrite (next_kth w g2 r L W k2 Hr H2).
    destruct (interleave sched g1 g2 (advance g2 r k2 w)) as [os w'] eqn:Hrest.
    destruct (IH (advance g2 r k2 w) g1 g2 r L W k1 (Datatypes.S k2)) as [IH1 IH2];
      [done| by rewrite advance_lookup_other
       | by rewrite advance_lookup_other
       | by eapply advance_lookup_self |].
    rewrite Hrest in IH1, IH2. cbn [fst] in *.
    unfold seen_by in *. split.
    + rewrite filter_cons_False by done.
      rewrite (filter_cons_False (λ x, x = true)) by done.
      exact IH1.
    + rewrite filter_cons_True by done.
      rewrite (filter_cons_True (λ x, x = false)) by done.
      cbn [length seq fmap list_fmap snd]. by rewrite IH2.
Qed.

End IterationFacts.

(** ** The Rectangle class *)

Section RectangleClaims.
Context {S : Type}.
Implicit Types (w : world S) (a g r : addr) (k : nat).

(** What holds once [r = Rectangle(L, W)], [g1 = iter(r)] and
    [g2 = iter(r)] have run. *)
Lemma two_iterators w (L W : Z) :
  let r := length (heap w) in
  let g1 := Datatypes.S r in
  let g2 := Datatypes.S g1 in
  ∃ w2,
    (r ← Rectangle L W;
     g1 ← Rectangle___iter__ r;
     g2 ← Rectangle___iter__ r;
     mret (r, g1, g2)) w = (Returns (r, g1, g2), w2) ∧
    heap w2 !! r = Some (RectangleObj (rect_dict L W)) ∧
    heap w2 !! g1 = Some (GeneratorObj r GEN_CREATED) ∧
    heap w2 !! g2 = Some (GeneratorObj r GEN_CREATED).
Proof.
  intros r g1 g2. eexists.
  unfold mbind, M_bind. rewrite Rectangle_returns.
  unfold Rectangle___iter__, alloc, mret, M_ret. cbn [heap set_heap].
  rewrite !length_app. cbn [length].
  replace (length (heap w) + 1) with g1 by (subst g1 r; lia).
  replace (g1 + 1) with g2 by (subst g2; lia).
  split; [reflexivity|]. cbn [heap set_heap]. split_and!.
  - rewrite !lookup_app_l by (rewrite ?length_app; cbn; subst r; lia).
    apply lookup_alloc.
  - rewrite lookup_app_l by (rewrite !length_app; cbn; subst g1 r; lia).
    apply list_lookup_middle. rewrite length_app. cbn. subst g1 r. lia.
  - apply list_lookup_middle. rewrite !length_app. cbn. subst g2 g1 r. lia.
Qed.

(** C1.  For all integers [L] and [W], zero and negative ones included,
    [Rectangle(L, W)] is built without complaint and iterating it to the
    end gives exactly the two mappings [{length: L}] and [{width: W}], in
    this order (the loop needs three calls of [next], hence the fuel). *)
Theorem Rectangle_iterates_length_then_width w (L W : Z) (fuel : nat) :
  3 ≤ fuel →
  ∃ w',
    (rect ← Rectangle L W;
     it ← Rectangle___iter__ rect;
     list_of fuel it) w =
    (Returns [ {[ "length" := L ]}; {[ "width" := W ]} ], w').
Proof.
  intros Hfuel. eexists.
  unfold mbind, M_bind. rewrite Rectangle_returns.
  unfold Rectangle___iter__, alloc. cbn [heap set_heap].
  apply (list_of_generator _ _ (length (heap w))); [done|..];
    cbn [heap set_heap].
  - rewrite lookup_app_l by (rewrite length_app; cbn; lia).
    apply lookup_alloc.
  - apply lookup_alloc.
Qed.

(** C4.  Every call of [__iter__] on one rectangle starts a sequence of
    its own: the two generators are different objects, in any
    interleaving of [next] calls each of them gives [{length: L}], then
    [{width: W}], then only [StopIteration], however far the other one
    is, and iterating each to the end gives the same two mappings. *)
Theorem Rectangle_iterations_independent w (L W : Z)
    (sched : list bool) (fuel : nat) :
  3 ≤ fuel →
  ∃ r g1 g2 w2,
    (r ← Rectangle L W;
     g1 ← Rectangle___iter__ r;
     g2 ← Rectangle___iter__ r;
     mret (r, g1, g2)) w = (Returns (r, g1, g2), w2) ∧
    g1 ≠ g2 ∧
    (∀ b : bool,
       seen_by b (interleave sched g1 g2 w2).1 =
         kth_next L W <$> seq 0 (length (filter (λ x, x = b) sched))) ∧
    ((first ← list_of fuel g1;
      second ← list_of fuel g2;
      mret (first, second)) w2).1 =
      Returns ([ {[ "length" := L ]}; {[ "width" := W ]} ],
               [ {[ "length" := L ]}; {[ "width" := W ]} ]).
Proof.
  intros Hfuel.
  destruct (two_iterators w L W) as (w2 & Hrun & Hr & Hg1 & Hg2).
  eexists _, _, _, w2. split; [exact Hrun|].
  split; [apply n_Sn|]. split.
  - intros b.
    destruct (interleave_independent sched w2 _ _ _ L W 0 0
                (n_Sn _) Hr Hg1 Hg2) as [Ht Hf].
    by destruct b.
  - unfold mbind, M_bind.
    rewrite (list_of_generator w2 _ _ L W fuel Hfuel Hr Hg1).
    set (w3 := set_heap _ w2).
    assert (heap w3 !! length (heap w)
            = Some (RectangleObj (rect_dict L W))) as Hr'.
    { subst w3. cbn [heap set_heap].
      rewrite list_lookup_insert_ne; [done|apply Nat.neq_succ_diag_l]. }
    assert (heap w3 !! Datatypes.S (Datatypes.S (length (heap w)))
            = Some (GeneratorObj (length (heap w)) GEN_CREATED)) as Hg2'.
    { subst w3. cbn [heap set_heap].
      rewrite list_lookup_insert_ne; [done|apply n_Sn]. }
    by rewrite (list_of_generator w3 _ _ L W fuel Hfuel Hr' Hg2').
Qed.

(** C9.  Iterating does not change the rectangle: after any sequence of
    [iter] and [next] calls, on it or on anything else, complete or not,
    [length] still reads [L] and [width] still reads [W]. *)
Theorem Rectangle_unchanged_by_iteration w (L W : Z) (ops : list iter_op) :
  ∃ r w1,
    Rectangle L W w = (Returns r, w1) ∧
    getattr r "length" (run_ops ops w1) = (Returns L, run_ops ops w1) ∧
    getattr r "width" (run_ops ops w1) = (Returns W, run_ops ops w1).
Proof.
  eexists _, _. split; [apply Rectangle_returns|].
  assert (heap (run_ops ops
                  (set_heap (heap w ++ [RectangleObj (rect_dict L W)]) w))
            !! length (heap w) = Some (RectangleObj (rect_dict L W))) as H.
  { apply run_ops_keeps_instances. cbn [heap set_heap]. apply lookup_alloc. }
  split.
  - eapply getattr_instance; [exact H|apply rect_dict_length].
  - eapply getattr_instance; [exact H|apply rect_dict_width].
Qed.

(** C5, as the code has it.  A new rectangle holds exactly the two
    attributes [length] and [width], with the integers it was built from;
    the iteration protocol never changes them, but nothing stops an
    assignment from replacing one; and since the class defines no
    [__eq__], a rectangle is equal to itself only: a second rectangle is
    another object, also when it is built from the same integers. *)
Theorem Rectangle_attributes_and_identity w (L W : Z) :
  ∃ r w1 d,
    Rectangle L W w = (Returns r, w1) ∧
    heap w1 !! r = Some (RectangleObj d) ∧
    dom d = ({[ "length"; "width" ]} : gset string) ∧
    d !! "length" = Some L ∧ d !! "width" = Some W ∧
    (∀ ops, heap (run_ops ops w1) !! r = Some (RectangleObj d)) ∧
    (∀ key v, ∃ w1',
       setattr r key v w1 = (Returns tt, w1') ∧
       heap w1' !! r = Some (RectangleObj (<[key := v]> d))) ∧
    (∀ a b : addr, object___eq__ a b = true ↔ a = b) ∧
    (∃ r' w2, Rectangle L W w1 = (Returns r', w2) ∧
              heap w2 !! r = Some (RectangleObj d) ∧
              heap w2 !! r' = Some (RectangleObj d) ∧
              object___eq__ r r' = false).
Proof.
  assert (heap (set_heap (heap w ++ [RectangleObj (rect_dict L W)]) w)
            !! length (heap w) = Some (RectangleObj (rect_dict L W))) as Hr.
  { cbn [heap set_heap]. apply lookup_alloc. }
  eexists _, _, (rect_dict L W). split; [apply Rectangle_returns|].
  split_and!.
  - exact Hr.
  - apply rect_dict_dom.
  - apply rect_dict_length.
  - apply rect_dict_width.
  - intros ops. by apply run_ops_keeps_instances.
  - intros key v. eexists. unfold setattr. rewrite Hr. unfold store.
    split; [reflexivity|]. cbn [heap set_heap].
    apply list_lookup_insert_eq. rewrite length_app. cbn. lia.
  - intros a b. unfold object___eq__. apply Nat.eqb_eq.
  - eexists _, _. split; [apply Rectangle_returns|].
    cbn [heap set_heap]. split_and!.
    + rewrite lookup_app_l by (rewrite length_app; cbn; lia).
      apply lookup_alloc.
    + apply lookup_alloc.
    + unfold object___eq__. apply Nat.eqb_neq. rewrite length_app. cbn. lia.
Qed.

End RectangleClaims.

(** [Rectangle(10, 5)] iterated gives [{length: 10}] then [{width: 5}]. *)
Lemma Rectangle_10_5 :
  3 ≤ 3 ∧
  ∃ w',
    (rect ← Rectangle 10 5;
     it ← Rectangle___iter__ rect;
     list_of 3 it) idle_world =
    (Returns [ {[ "length" := 10%Z ]}; {[ "width" := 5%Z ]} ], w').
Proof.
  split; [lia|].
  apply (Rectangle_iterates_length_then_width idle_world 10 5 3).
  lia.
Defined.

(** Two generators over [Rectangle(-2, 0)], advanced alternately. *)
Lemma Rectangle_two_generators :
  3 ≤ 4 ∧
  ∃ r g1 g2 w2,
    (r ← Rectangle (-2) 0;
     g1 ← Rectangle___iter__ r;
     g2 ← Rectangle___iter__ r;
     mret (r, g1, g2)) idle_world = (Returns (r, g1, g2), w2) ∧
    g1 ≠ g2 ∧
    (∀ b : bool,
       seen_by b (interleave [true; false; false; true; true; false; false]
                    g1 g2 w2).1 =
         kth_next (-2) 0 <$>
           seq 0 (length (filter (λ x, x = b)
                            [true; false; false; true; true; false; false]))) ∧
    ((first ← list_of 4 g1;
      second ← list_of 4 g2;
      mret (first, second)) w2).1 =
      Returns ([ {[ "length" := (-2)%Z ]}; {[ "width" := 0%Z ]} ],
               [ {[ "length" := (-2)%Z ]}; {[ "width" := 0%Z ]} ]).
Proof.
  split; [lia|].
  apply (Rectangle_iterations_independent idle_world (-2) 0
           [true; false; false; true; true; false; false] 4).
  lia.
Defined.

(** Two rectangles built from the same integers are not equal, and an
    attribute can be assigned after construction. *)
Lemma Rectangle_equal_fields_unequal :
  ∃ r1 r2 w2,
    (r1 ← Rectangle 3 4; r2 ← Rectangle 3 4; mret (r1, r2))
      idle_world = (Returns (r1, r2), w2) ∧
    (getattr r1 "length" w2).1 = Returns 3%Z ∧
    (getattr r2 "length" w2).1 = Returns 3%Z ∧
    (getattr r1 "width" w2).1 = Returns 4%Z ∧
    (getattr r2 "width" w2).1 = Returns 4%Z ∧
    object___eq__ r1 r2 = false ∧
    ((setattr r1 "length" 7;; getattr r1 "length") w2).1 = Returns 7%Z.
Proof.
  eexists _, _, _. split; [vm_compute; reflexivity|].
  vm_compute. repeat split.
Qed.

(** ** The probes, over any framework *)

Section ScriptFacts.
Context {S : Type}.
Variable fw : Framework S.
Implicit Types (w : world S) (e : exc).

Lemma printed_printed (l1 l2 : list string) w :
  printed l2 (printed l1 w) = printed (l1 ++ l2) w.
Proof.
  unfold printed, set_stdout. cbn [stdout heap clock ident interrupt ext].
  by rewrite app_assoc.
Qed.

Lemma print_printed (s : string) w : print s w = (Returns tt, printed [s] w).
Proof. reflexivity. Qed.

Lemma print2_printed (a b : string) w :
  print2 a b w = (Returns tt, printed [a +:+ " " +:+ b] w).
Proof. reflexivity. Qed.

(** An exception that leaves [User.objects.create] inside the [with]
    block leaves the block too, once [__exit__] has declined to swallow
    it. *)
Lemma atomic_block_create_raises w0 w1 w2 w3 e :
  atomic___enter__ fw w0 = (Returns tt, w1) →
  User_objects_create fw (post_save_receivers fw) "rollback_user" w1
    = (Raises e, w2) →
  atomic___exit__ fw (Some e) w2 = (Returns false, w3) →
  atomic_block fw w0 = (Raises e, w3).
Proof.
  intros Henter Hcreate Hexit.
  unfold atomic_block, with_, leave_with, mbind, M_bind.
  rewrite Henter, Hcreate, Hexit. reflexivity.
Qed.

(** When creation returns, the forced error is what leaves the block. *)
Lemma atomic_block_forced w0 w1 w2 w3 u :
  atomic___enter__ fw w0 = (Returns tt, w1) →
  User_objects_create fw (post_save_receivers fw) "rollback_user" w1
    = (Returns u, w2) →
  atomic___exit__ fw (Some forced_error) w2 = (Returns false, w3) →
  atomic_block fw w0 = (Raises forced_error, w3).
Proof.
  intros Henter Hcreate Hexit.
  unfold atomic_block, with_, leave_with, mbind, M_bind, raise.
  rewrite Henter, Hcreate, Hexit. reflexivity.
Qed.

(** The [try] statement and what follows it, for a block that raises. *)
Lemma test_transaction_signal_caught w e w1 n w2 :
  isinstance_Exception (exc_cls e) = true →
  atomic_block fw (printed [header_3] w) = (Raises e, w1) →
  Profile_objects_count fw (printed [caught_line e] w1) = (Returns n, w2) →
  test_transaction_signal fw w =
    (Returns tt, printed [count_line n; verdict_line] w2).
Proof.
  intros Hcls Hblock Hcount.
  unfold test_transaction_signal, try_except_Exception, report_profiles.
  unfold mbind, M_bind. rewrite print_printed.
  change (nl +:+ "=== Test 3: Transaction Behavior ===") with header_3.
  rewrite Hblock, Hcls, print2_printed.
  change ("[Main] Exception caught:" +:+ " " +:+ exc_str e)
    with (caught_line e).
  rewrite Hcount, print2_printed, print_printed, printed_printed.
  reflexivity.
Qed.

End ScriptFacts.

(** ** The in-memory framework *)

(** Projections and setters of the interpreter state and of the store. *)
Ltac world_simpl :=
  cbn [stdout heap clock ident interrupt ext
       set_stdout set_heap set_clock set_ext set_own_connection
       db savepoints next_pk own_connection auth_user profile pk
       add_user add_profile send
       Profile_objects_create memory_framework].

Section MemoryFacts.
Variable in_txn : bool.
Implicit Types (w : world datastore).

Lemma mem_create_taken receivers (name : string) w :
  name ∈ username <$> auth_user (db (ext w)) →
  mem_User_objects_create in_txn receivers name w =
    (Raises username_taken, w).
Proof.
  intros Hin. unfold mem_User_objects_create. by rewrite decide_True.
Qed.

Lemma mem_create_new (name : string) w :
  interrupt w = false →
  own_connection (ext w) = false →
  name ∉ username <$> auth_user (db (ext w)) →
  next_pk (ext w) ∉ profile (db (ext w)) →
  mem_User_objects_create in_txn
    (post_save_receivers (memory_framework in_txn)) name w =
    (Returns (mkUser (next_pk (ext w)) name),
     World (stdout w ++ signal_lines (ident w)) (heap w) (clock w + 3)
       (ident w) false (created in_txn name (ext w))).
Proof.
  destruct w as [out h c i intr [[us ps] sp k oc]].
  cbn [ext own_connection db auth_user profile next_pk interrupt].
  intros -> -> Hname Hpk.
  unfold mem_User_objects_create.
  cbn [ext db auth_user]. rewrite decide_False by done.
  unfold post_save_receivers, post_save_send, created.
  destruct in_txn.
  all: unfold mbind, M_bind, take_pk, write, mret, M_ret; world_simpl.
  all: unfold slow_signal_handler, thread_check, create_profile.
  all: unfold mbind, M_bind, print, time_sleep, threading_get_ident.
  all: world_simpl; unfold mem_Profile_objects_create; world_simpl.
  all: rewrite decide_False by done.
  all: unfold write; world_simpl.
  all: unfold mret, M_ret, signal_lines; rewrite <- !app_assoc.
  all: reflexivity.
Qed.

End MemoryFacts.

(** ** The transaction probe *)

Lemma profiles_of_absent (k : Z) (t : tables) :
  k ∉ profile t → profiles_of k t = 0.
Proof.
  unfold profiles_of. induction (profile t) as [|x ps IH]; intros Hk; [done|].
  apply not_elem_of_cons in Hk as [Hx Hps].
  rewrite filter_cons_False by congruence. by apply IH.
Qed.

Lemma profiles_of_add (k : Z) (t : tables) :
  profiles_of k (add_profile k t) = Datatypes.S (profiles_of k t).
Proof.
  unfold profiles_of, add_profile. cbn [profile].
  rewrite filter_app, length_app.
  rewrite filter_cons_True by done. cbn. lia.
Qed.

Section TransactionClaims.
Context {S : Type}.
Variable fw : Framework S.
Implicit Types (w : world S) (e : exc).

(** C3.  The probe enters the transactional scope, creates the user and
    then raises the forced error inside the scope, whatever user the
    creation returned; the error leaves the scope, is caught by the
    handler, its text is printed, and the function goes on to print the
    profile count and the verdict line and returns: whatever the count
    [n] is, nothing is asserted about it. *)
Theorem test_transaction_signal_forces_and_reports w w1 u w2 w3 n w4 :
  atomic___enter__ fw (printed [header_3] w) = (Returns tt, w1) →
  User_objects_create fw (post_save_receivers fw) "rollback_user" w1
    = (Returns u, w2) →
  atomic___exit__ fw (Some forced_error) w2 = (Returns false, w3) →
  Profile_objects_count fw (printed [caught_line forced_error] w3)
    = (Returns n, w4) →
  atomic_block fw (printed [header_3] w) = (Raises forced_error, w3) ∧
  caught_line forced_error
    = "[Main] Exception caught: Force rollback after signal" ∧
  test_transaction_signal fw w =
    (Returns tt, printed [count_line n; verdict_line] w4).
Proof.
  intros Henter Hcreate Hexit Hcount.
  pose proof (atomic_block_forced fw _ _ _ _ _ Henter Hcreate Hexit) as Hblk.
  split; [exact Hblk|]. split; [reflexivity|].
  apply (test_transaction_signal_caught fw w forced_error w3 n w4);
    [reflexivity|exact Hblk|exact Hcount].
Qed.

(** C10, as the code has it.  The handler is [except Exception]: an
    exception that leaves the block is caught exactly when it is an
    instance of [Exception].  Then, forced or not, its text is printed
    and the function goes on to print the profile count and returns;
    otherwise ([KeyboardInterrupt], [SystemExit]) it leaves the function
    and nothing more is printed.  An error raised by the creation of the
    user, which is where the receivers run, leaves the block like the
    forced one. *)
Theorem test_transaction_signal_catches_every_Exception w e w1 :
  atomic_block fw (printed [header_3] w) = (Raises e, w1) →
  (isinstance_Exception (exc_cls e) = true →
   ∀ n w2,
     Profile_objects_count fw (printed [caught_line e] w1)
       = (Returns n, w2) →
     test_transaction_signal fw w =
       (Returns tt, printed [count_line n; verdict_line] w2)) ∧
  (isinstance_Exception (exc_cls e) = false →
   test_transaction_signal fw w = (Raises e, w1)) ∧
  (∀ w0 wa wb wc e',
     atomic___enter__ fw w0 = (Returns tt, wa) →
     User_objects_create fw (post_save_receivers fw) "rollback_user" wa
       = (Raises e', wb) →
     atomic___exit__ fw (Some e') wb = (Returns false, wc) →
     atomic_block fw w0 = (Raises e', wc)).
Proof.
  intros Hblock. split_and!.
  - intros Hcls n w2 Hcount.
    apply (test_transaction_signal_caught fw w e w1 n w2);
      [exact Hcls|exact Hblock|exact Hcount].
  - intros Hcls.
    unfold test_transaction_signal, try_except_Exception, mbind, M_bind.
    rewrite print_printed.
    change (nl +:+ "=== Test 3: Transaction Behavior ===") with header_3.
    by rewrite Hblock, Hcls.
  - intros w0 wa wb wc e'. apply atomic_block_create_raises.
Qed.

End TransactionClaims.

(** C2.  On the in-memory framework, for a store in which the name
    [rollback_user] is free: the probe returns, the user is gone again,
    the count it prints is the number of profiles found once the scope has
    been left, and no profile of the rolled-back user is left exactly when
    the receivers' writes belong to the caller's transaction.  (Nobody
    interrupts the run, and the caller is not itself a receiver writing on
    a connection of its own.) *)
Theorem rollback_probe_count (in_txn : bool) (w : world datastore) :
  interrupt w = false →
  own_connection (ext w) = false →
  "rollback_user" ∉ username <$> auth_user (db (ext w)) →
  next_pk (ext w) ∉ profile (db (ext w)) →
  ∃ w',
    test_transaction_signal (memory_framework in_txn) w = (Returns tt, w') ∧
    stdout w' =
      stdout w ++ [header_3] ++ signal_lines (ident w) ++
        [ caught_line forced_error;
          count_line (Z.of_nat (length (profile (db (ext w')))));
          verdict_line ] ∧
    auth_user (db (ext w')) = auth_user (db (ext w)) ∧
    length (savepoints (ext w')) = length (savepoints (ext w)) ∧
    (profiles_of (next_pk (ext w)) (db (ext w')) = 0 ↔ in_txn = true).
Proof.
  intros Hint Hoc Hname Hpk.
  destruct w as [out h c i intr [[us ps] sp k oc]].
  cbn [ext own_connection db auth_user profile next_pk interrupt] in *.
  subst oc intr.
  destruct in_txn.
  - eexists. split.
    + eapply (test_transaction_signal_caught _ _ forced_error);
        [reflexivity| |].
      * eapply atomic_block_forced;
          [reflexivity
          |apply (mem_create_new true);
             [reflexivity|reflexivity|exact Hname|exact Hpk]
          |reflexivity].
      * reflexivity.
    + cbn -[profiles_of]. rewrite <- !app_assoc. split_and!; try done.
      split; [done|]. intros _.
      by apply (profiles_of_absent k (Tables us ps)).
  - eexists. split.
    + eapply (test_transaction_signal_caught _ _ forced_error);
        [reflexivity| |].
      * eapply atomic_block_forced;
          [reflexivity
          |apply (mem_create_new false);
             [reflexivity|reflexivity|exact Hname|exact Hpk]
          |reflexivity].
      * reflexivity.
    + cbn -[profiles_of]. rewrite <- !app_assoc. split_and!; try done.
      * exact (length_fmap (add_profile k) sp).
      * split; [|done]. intros H0.
        change (Tables us (ps ++ [k])) with (add_profile k (Tables us ps)) in H0.
        by rewrite profiles_of_add in H0.
Qed.

(** ** The other probes, the runner and the entry point *)

Section RunnerClaims.
Context {S : Type}.
Variable fw : Framework S.
Implicit Types (w : world S) (e : exc).

Lemma test_synchronous_signal_unfold w :
  test_synchronous_signal fw w =
    match User_objects_create fw (post_save_receivers fw) "sync_test_user"
            (printed [header_1; "Creating user..."] w) with
    | (Returns _, w') =>
        (Returns tt,
         printed ["User created successfully — after signal completed."
                  +:+ nl] w')
    | (Raises e, w') => (Raises e, w')
    | (OutOfFuel, w') => (OutOfFuel, w')
    end.
Proof.
  unfold test_synchronous_signal, mbind, M_bind.
  rewrite !print_printed, printed_printed. reflexivity.
Qed.

(** C7.  [test_synchronous_signal] has no handler: it raises exactly
    what [User.objects.create] raises (a uniqueness violation on a used
    name like any other error), and ends in the state the failing call
    left, so the line after the call is not executed and "created
    successfully" is not printed. *)
Theorem test_synchronous_signal_propagates w e w' :
  test_synchronous_signal fw w = (Raises e, w') ↔
  User_objects_create fw (post_save_receivers fw) "sync_test_user"
    (printed [header_1; "Creating user..."] w) = (Raises e, w').
Proof.
  rewrite test_synchronous_signal_unfold.
  destruct (User_objects_create fw _ _ _) as [[u|e0|] w0]; split;
    intros H; by simplify_eq.
Qed.

(** Lines 77-82 print the heading, the two mappings and an empty line. *)
Lemma test_rectangle_iteration_prints w (fuel : nat) :
  3 ≤ fuel →
  ∃ w',
    test_rectangle_iteration fuel w = (Returns tt, w') ∧
    stdout w' =
      stdout w ++ [ nl +:+ "=== Test 4: Custom Rectangle Class ===";
                    "{'length': 10}"; "{'width': 5}"; EmptyString ].
Proof.
  intros Hfuel. eexists.
  unfold test_rectangle_iteration, mbind, M_bind.
  rewrite print_printed, Rectangle_returns.
  unfold Rectangle___iter__, alloc. cbn [heap set_heap printed set_stdout].
  rewrite (for_in_generator _ _ (length (heap w)) 10 5 fuel Hfuel).
  - split; [reflexivity|].
    assert (repr_dict {[ "length" := 10%Z ]} = "{'length': 10}") as ->
      by (vm_compute; reflexivity).
    assert (repr_dict {[ "width" := 5%Z ]} = "{'width': 5}") as ->
      by (vm_compute; reflexivity).
    unfold printed. cbn [stdout set_stdout set_heap print fst snd].
    rewrite <- !app_assoc. reflexivity.
  - cbn [heap set_heap].
    rewrite lookup_app_l by (rewrite length_app; cbn; lia).
    apply lookup_alloc.
  - cbn [heap set_heap]. apply lookup_alloc.
Qed.

(** C6.  [run_all_tests] is the four probes in the order of the file and
    nothing else: it behaves as running them one after the other with
    nothing passed from one to the next, and an error that leaves one of
    the first three ends the run there, in the state that probe left, so
    the later ones do not run. *)
Theorem run_all_tests_in_order (fuel : nat) w :
  run_all_tests fw fuel w =
    in_order [ test_synchronous_signal fw; test_thread_signal fw;
               test_transaction_signal fw; test_rectangle_iteration fuel ]
      w ∧
  (∀ e w1,
     test_synchronous_signal fw w = (Raises e, w1) →
     run_all_tests fw fuel w = (Raises e, w1)) ∧
  (∀ e w1 w2,
     test_synchronous_signal fw w = (Returns tt, w1) →
     test_thread_signal fw w1 = (Raises e, w2) →
     run_all_tests fw fuel w = (Raises e, w2)) ∧
  (∀ e w1 w2 w3,
     test_synchronous_signal fw w = (Returns tt, w1) →
     test_thread_signal fw w1 = (Returns tt, w2) →
     test_transaction_signal fw w2 = (Raises e, w3) →
     run_all_tests fw fuel w = (Raises e, w3)) ∧
  (∀ w1 w2 w3,
     test_synchronous_signal fw w = (Returns tt, w1) →
     test_thread_signal fw w1 = (Returns tt, w2) →
     test_transaction_signal fw w2 = (Returns tt, w3) →
     run_all_tests fw fuel w = test_rectangle_iteration fuel w3).
Proof.
  unfold run_all_tests, mbind, M_bind. cbn [in_order]. split_and!.
  - destruct (test_synchronous_signal fw w) as [[[]|e|] w1]; [|done..].
    destruct (test_thread_signal fw w1) as [[[]|e|] w2]; [|done..].
    destruct (test_transaction_signal fw w2) as [[[]|e|] w3]; [|done..].
    by destruct (test_rectangle_iteration fuel w3) as [[[]|e|] w4].
  - by intros e w1 ->.
  - by intros e w1 w2 -> ->.
  - by intros e w1 w2 w3 -> -> ->.
  - by intros w1 w2 w3 -> -> ->.
Qed.

(** The guarded block of lines 93-97 under [__name__ == "__main__"]: it
    prints the four usage lines and returns; it calls no probe and no
    operation of the framework (it does not even take one), and leaves the
    data store, the objects and the clock as they were. *)
Lemma module_main_prints_usage w :
  module_main "__main__" w = (Returns tt, printed usage w) ∧
  ext (printed usage w) = ext w ∧
  heap (printed usage w) = heap w ∧
  clock (printed usage w) = clock w ∧
  usage =
    [ ">>> Django Signals and Python Custom Class Tests <<<";
      "Run these functions individually inside Django shell:" +:+ nl;
      "    from yourapp.django_signal_tests import run_all_tests";
      "    run_all_tests()" +:+ nl ].
Proof.
  split_and!; try reflexivity.
  unfold module_main. rewrite decide_True by done.
  unfold mbind, M_bind. rewrite !print_printed, !printed_printed.
  reflexivity.
Qed.

End RunnerClaims.

(** ** The claims on concrete stores *)

(** On the empty store, with receivers inside the transaction, no profile
    of the rolled-back user is left. *)
Lemma rollback_probe_on_fresh_store :
  interrupt fresh_world = false ∧
  own_connection (ext fresh_world) = false ∧
  ("rollback_user" ∉ username <$> auth_user (db (ext fresh_world))) ∧
  (next_pk (ext fresh_world) ∉ profile (db (ext fresh_world))) ∧
  ∃ w',
    test_transaction_signal (memory_framework true) fresh_world
      = (Returns tt, w') ∧
    (profiles_of 1 (db (ext w')) = 0 ↔ true = true).
Proof.
  assert (interrupt fresh_world = false) as H0 by reflexivity.
  assert (own_connection (ext fresh_world) = false) as H1 by reflexivity.
  assert ("rollback_user" ∉ username <$> auth_user (db (ext fresh_world)))
    as H2 by apply not_elem_of_nil.
  assert (next_pk (ext fresh_world) ∉ profile (db (ext fresh_world)))
    as H3 by apply not_elem_of_nil.
  split_and!; [exact H0|exact H1|exact H2|exact H3|].
  destruct (rollback_probe_count true fresh_world H0 H1 H2 H3)
    as (w' & Hrun & _ & _ & _ & Hiff).
  exists w'. split; [exact Hrun|exact Hiff].
Defined.

(** The forced error on the empty store: eight lines are printed, the
    fifth of them the text of the error, and the probe returns. *)
Lemma forced_error_on_fresh_store :
  atomic___enter__ (memory_framework true) (printed [header_3] fresh_world)
    = (Returns tt, fresh_entered) ∧
  User_objects_create (memory_framework true)
    (post_save_receivers (memory_framework true)) "rollback_user"
    fresh_entered = (Returns (mkUser 1 "rollback_user"), fresh_created) ∧
  atomic___exit__ (memory_framework true) (Some forced_error) fresh_created
    = (Returns false, fresh_rolled_back) ∧
  Profile_objects_count (memory_framework true)
    (printed [caught_line forced_error] fresh_rolled_back)
    = (Returns 0%Z, fresh_counted) ∧
  test_transaction_signal (memory_framework true) fresh_world =
    (Returns tt, printed [count_line 0; verdict_line] fresh_counted) ∧
  stdout (printed [count_line 0; verdict_line] fresh_counted) =
    [ header_3;
      "[Signal] Started processing...";
      "[Signal] Finished processing.";
      "[Signal] Thread ID: 140735";
      "[Signal] Profile created inside same transaction";
      "[Main] Exception caught: Force rollback after signal";
      "Profiles in DB after rollback: 0";
      verdict_line ].
Proof.
  assert (atomic___enter__ (memory_framework true)
            (printed [header_3] fresh_world) = (Returns tt, fresh_entered))
    as H1 by (vm_compute; reflexivity).
  assert (User_objects_create (memory_framework true)
            (post_save_receivers (memory_framework true)) "rollback_user"
            fresh_entered = (Returns (mkUser 1 "rollback_user"), fresh_created))
    as H2 by (vm_compute; reflexivity).
  assert (atomic___exit__ (memory_framework true) (Some forced_error)
            fresh_created = (Returns false, fresh_rolled_back))
    as H3 by (vm_compute; reflexivity).
  assert (Profile_objects_count (memory_framework true)
            (printed [caught_line forced_error] fresh_rolled_back)
            = (Returns 0%Z, fresh_counted))
    as H4 by (vm_compute; reflexivity).
  split_and!; [exact H1|exact H2|exact H3|exact H4| |vm_compute; reflexivity].
  exact (proj2 (proj2
    (test_transaction_signal_forces_and_reports (memory_framework true)
       fresh_world _ _ _ _ _ _ H1 H2 H3 H4))).
Defined.

(** A receiver's own error is caught too: with a stray profile row in the
    store, [create_profile] raises inside the block, and the handler prints
    that error and the probe goes on to the count. *)
Lemma receiver_error_is_caught :
  atomic_block (memory_framework true)
    (printed [header_3] world_with_stray_profile)
    = (Raises profile_taken, stray_left) ∧
  isinstance_Exception (exc_cls profile_taken) = true ∧
  Profile_objects_count (memory_framework true)
    (printed [caught_line profile_taken] stray_left)
    = (Returns 1%Z, stray_counted) ∧
  test_transaction_signal (memory_framework true) world_with_stray_profile =
    (Returns tt, printed [count_line 1; verdict_line] stray_counted) ∧
  stdout (printed [count_line 1; verdict_line] stray_counted) =
    [ header_3;
      "[Signal] Started processing...";
      "[Signal] Finished processing.";
      "[Signal] Thread ID: 140735";
      "[Main] Exception caught: UNIQUE constraint failed: profile.user_id";
      "Profiles in DB after rollback: 1";
      verdict_line ].
Proof.
  assert (isinstance_Exception (exc_cls profile_taken) = true)
    as H1 by reflexivity.
  assert (atomic_block (memory_framework true)
            (printed [header_3] world_with_stray_profile)
            = (Raises profile_taken, stray_left))
    as H2 by (vm_compute; reflexivity).
  assert (Profile_objects_count (memory_framework true)
            (printed [caught_line profile_taken] stray_left)
            = (Returns 1%Z, stray_counted))
    as H3 by (vm_compute; reflexivity).
  split_and!; [exact H2|exact H1|exact H3| |vm_compute; reflexivity].
  exact (proj1
    (test_transaction_signal_catches_every_Exception (memory_framework true)
       world_with_stray_profile _ _ H2) H1 _ _ H3).
Defined.

(** An interrupt is not caught: when the operator presses the interrupt
    key while [slow_signal_handler] sleeps, [KeyboardInterrupt] leaves the
    block and then the probe; neither the error nor the profile count is
    printed. *)
Lemma interrupt_is_not_caught :
  ∃ w1,
    atomic_block (memory_framework true)
      (printed [header_3] interrupted_world)
      = (Raises (Exc KeyboardInterrupt_ EmptyString), w1) ∧
    test_transaction_signal (memory_framework true) interrupted_world
      = (Raises (Exc KeyboardInterrupt_ EmptyString), w1) ∧
    stdout w1 = [ header_3; "[Signal] Started processing..." ].
Proof.
  eexists. split; [vm_compute; reflexivity|].
  split; vm_compute; reflexivity.
Qed.

(** The second call of [test_synchronous_signal] on one store: the name is
    taken, the error of the creation leaves the probe, and only the two
    lines before the call have been printed. *)
Lemma test_synchronous_signal_second_call :
  User_objects_create (memory_framework true)
    (post_save_receivers (memory_framework true)) "sync_test_user"
    (printed [header_1; "Creating user..."] world_after_one_run)
    = (Raises username_taken,
       printed [header_1; "Creating user..."] world_after_one_run) ∧
  test_synchronous_signal (memory_framework true) world_after_one_run
    = (Raises username_taken,
       printed [header_1; "Creating user..."] world_after_one_run).
Proof.
  assert (User_objects_create (memory_framework true)
            (post_save_receivers (memory_framework true)) "sync_test_user"
            (printed [header_1; "Creating user..."] world_after_one_run)
          = (Raises username_taken,
             printed [header_1; "Creating user..."] world_after_one_run))
    as H by (vm_compute; reflexivity).
  split; [exact H|].
  exact (proj2 (test_synchronous_signal_propagates (memory_framework true)
                  world_after_one_run _ _) H).
Defined.

(** The second call of [run_all_tests] on one store ends in the first
    probe: none of the later probes prints its heading. *)
Lemma run_all_tests_second_call :
  test_synchronous_signal (memory_framework true) world_after_one_run
    = (Raises username_taken,
       printed [header_1; "Creating user..."] world_after_one_run) ∧
  run_all_tests (memory_framework true) 3 world_after_one_run
    = (Raises username_taken,
       printed [header_1; "Creating user..."] world_after_one_run).
Proof.
  assert (test_synchronous_signal (memory_framework true) world_after_one_run
          = (Raises username_taken,
             printed [header_1; "Creating user..."] world_after_one_run))
    as H by (vm_compute; reflexivity).
  split; [exact H|].
  exact (proj1 (proj2 (run_all_tests_in_order (memory_framework true) 3
                         world_after_one_run)) _ _ H).
Defined.

(** The first call of [run_all_tests] on the empty store runs the four
    probes to the end. *)
Example run_all_tests_first_call :
  ((run_all_tests (memory_framework true) 3 fresh_world).1 = Returns tt) ∧
  (drop 22 (stdout world_after_one_run) =
     [ nl +:+ "=== Test 4: Custom Rectangle Class ===";
       "{'length': 10}"; "{'width': 5}"; EmptyString ]).
Proof. split; vm_compute; reflexivity. Qed.

(** * Further properties of the script *)

(** ** The probes, over any framework *)

Section MoreScriptFacts.
Context {S : Type}.
Variable fw : Framework S.
Implicit Types (w : world S) (e : exc).

(** The body of the [with] block never completes: the block returns only
    if [__exit__] swallows the exception, so with a context manager that
    never does, the commit path is never taken. *)
Theorem atomic_block_never_returns w w' :
  never_swallows fw →
  atomic_block fw w ≠ (Returns tt, w').
Proof.
  intros Hns. unfold atomic_block, with_, leave_with, mbind, M_bind, raise.
  destruct (atomic___enter__ fw w) as [[[]|e|] w1]; [|done..].
  destruct (User_objects_create fw _ _ w1) as [[u|e|] w2]; [| |done].
  - destruct (atomic___exit__ fw (Some forced_error) w2) as [[b|e|] w3] eqn:Hx;
      [|done..].
    apply Hns in Hx as ->. done.
  - destruct (atomic___exit__ fw (Some e) w2) as [[b|e'|] w3] eqn:Hx;
      [|done..].
    apply Hns in Hx as ->. done.
Qed.

(** An error leaves [test_transaction_signal] in two ways only: it left
    the block and is no instance of [Exception], or the count query after
    the [try] statement raised it.  An instance of [Exception] that leaves
    the block never leaves the function. *)
Theorem test_transaction_signal_failure_modes w e w' :
  test_transaction_signal fw w = (Raises e, w') →
  (atomic_block fw (printed [header_3] w) = (Raises e, w') ∧
   isinstance_Exception (exc_cls e) = false) ∨
  (∃ w1,
     (atomic_block fw (printed [header_3] w) = (Returns tt, w1) ∨
      ∃ e0 w0,
        atomic_block fw (printed [header_3] w) = (Raises e0, w0) ∧
        isinstance_Exception (exc_cls e0) = true ∧
        w1 = printed [caught_line e0] w0) ∧
     Profile_objects_count fw w1 = (Raises e, w')).
Proof.
  unfold test_transaction_signal, try_except_Exception, report_profiles.
  unfold mbind, M_bind. rewrite print_printed.
  change (nl +:+ "=== Test 3: Transaction Behavior ===") with header_3.
  destruct (atomic_block fw _) as [[[]|e0|] w0] eqn:Hblock.
  - destruct (Profile_objects_count fw w0) as [[n|e1|] w1] eqn:Hcount;
      intros H; simplify_eq.
    right. exists w0. split; [by left|done].
  - destruct (isinstance_Exception (exc_cls e0)) eqn:Hcls.
    + rewrite print2_printed.
      change ("[Main] Exception caught:" +:+ " " +:+ exc_str e0)
        with (caught_line e0).
      destruct (Profile_objects_count fw _) as [[n|e1|] w1] eqn:Hcount;
        intros H; simplify_eq.
      right. eexists. split; [right; by eexists _, _|done].
    + intros H. simplify_eq. by left.
  - intros H. simplify_eq.
Qed.

Lemma test_thread_signal_unfold w :
  test_thread_signal fw w =
    match User_objects_create fw (post_save_receivers fw) "thread_test_user"
            (printed [header_2; main_thread_line (ident w)] w) with
    | (Returns _, w') => (Returns tt, printed [same_thread_line] w')
    | (Raises e, w') => (Raises e, w')
    | (OutOfFuel, w') => (OutOfFuel, w')
    end.
Proof.
  unfold test_thread_signal, mbind, M_bind, threading_get_ident.
  rewrite !print_printed, printed_printed. reflexivity.
Qed.

(** [test_thread_signal] prints the caller's thread id before it creates
    the user, has no handler (it raises exactly what the creation raises)
    and compares nothing: when the creation returns, the closing line is
    printed whatever the receivers printed. *)
Theorem test_thread_signal_outcomes w :
  (∀ e w',
     test_thread_signal fw w = (Raises e, w') ↔
     User_objects_create fw (post_save_receivers fw) "thread_test_user"
       (printed [header_2; main_thread_line (ident w)] w) = (Raises e, w')) ∧
  (∀ u w1,
     User_objects_create fw (post_save_receivers fw) "thread_test_user"
       (printed [header_2; main_thread_line (ident w)] w) = (Returns u, w1) →
     test_thread_signal fw w = (Returns tt, printed [same_thread_line] w1)).
Proof.
  rewrite test_thread_signal_unfold. split.
  - intros e w'.
    destruct (User_objects_create fw _ _ _) as [[u|e0|] w0]; split;
      intros H; by simplify_eq.
  - by intros u w1 ->.
Qed.

(** When the module is imported rather than run, the entry point prints
    nothing and changes nothing. *)
Theorem module_main_imported (name : string) w :
  name ≠ "__main__" →
  module_main name w = (Returns tt, w).
Proof.
  intros Hname. unfold module_main. by rewrite decide_False.
Qed.

End MoreScriptFacts.

(** ** More on the Rectangle class and its generators *)

Section MoreRectangleFacts.
Context {S : Type}.
Implicit Types (w : world S) (a g r : addr) (k : nat).

Lemma next_reads w g r (d : gmap string Z) (L W : Z) k :
  heap w !! r = Some (RectangleObj d) →
  d !! "length" = Some L → d !! "width" = Some W →
  heap w !! g = Some (GeneratorObj r (state_after k)) →
  next g w = (kth_next L W k, advance g r k w).
Proof.
  intros Hr HL HW Hg. unfold next, advance. rewrite Hg.
  destruct k as [|[|[|k]]]; cbn [state_after kth_next].
  - unfold run_to_yield, getattr. rewrite Hr, HL. reflexivity.
  - unfold run_to_yield, getattr. rewrite Hr, HW. reflexivity.
  - reflexivity.
  - rewrite list_insert_id by exact Hg. by rewrite set_heap_same.
Qed.

Lemma setattr_instance w a (d : gmap string Z) (key : string) (v : Z) :
  heap w !! a = Some (RectangleObj d) →
  setattr a key v w =
    (Returns tt,
     set_heap (<[a := RectangleObj (<[key := v]> d)]> (heap w)) w).
Proof. intros Ha. unfold setattr. by rewrite Ha. Qed.

(** What holds once [r = Rectangle(L, W)] and [g = iter(r)] have run. *)
Lemma one_iterator w (L W : Z) :
  ∃ w1,
    (r ← Rectangle L W; g ← Rectangle___iter__ r; mret (r, g)) w
      = (Returns (length (heap w), Datatypes.S (length (heap w))), w1) ∧
    heap w1 = heap w ++ [ RectangleObj (rect_dict L W);
                          GeneratorObj (length (heap w)) GEN_CREATED ] ∧
    stdout w1 = stdout w ∧ clock w1 = clock w ∧ ident w1 = ident w ∧
    interrupt w1 = interrupt w ∧ ext w1 = ext w.
Proof.
  eexists. unfold mbind, M_bind. rewrite Rectangle_returns.
  unfold Rectangle___iter__, alloc, mret, M_ret. cbn [heap set_heap].
  rewrite length_app. cbn [length].
  replace (length (heap w) + 1) with (Datatypes.S (length (heap w))) by lia.
  split; [reflexivity|]. cbn [heap set_heap stdout clock ident interrupt ext].
  by rewrite <- app_assoc.
Qed.

Lemma lookup_rect (h : list obj) (o1 o2 : obj) :
  (h ++ [o1; o2]) !! length h = Some o1.
Proof. by rewrite list_lookup_middle. Qed.

Lemma lookup_gen (h : list obj) (o1 o2 : obj) :
  (h ++ [o1; o2]) !! Datatypes.S (length h) = Some o2.
Proof.
  rewrite lookup_app_r by lia.
  by replace (Datatypes.S (length h) - length h) with 1 by lia.
Qed.

(** [next] changes nothing that exists but the frame it resumes: it
    prints nothing, takes no time, leaves the framework's state alone, and
    every rectangle and every other generator is as before.  (The mapping
    it yields is a new dict each time; it is the result, not part of this
    statement.) *)
Theorem next_only_moves_its_frame w g :
  stdout (next g w).2 = stdout w ∧
  clock (next g w).2 = clock w ∧
  interrupt (next g w).2 = interrupt w ∧
  ext (next g w).2 = ext w ∧
  (∀ a, a ≠ g → heap (next g w).2 !! a = heap w !! a).
Proof.
  unfold next.
  destruct (heap w !! g) as [[dg|self st]|] eqn:Hg; [done| |done].
  destruct st; unfold run_to_yield, store, raise, mbind, M_bind, mret, M_ret.
  - unfold getattr. destruct (heap w !! self) as [[ds|? ?]|];
      try destruct (ds !! "length");
      cbn [snd stdout clock interrupt ext heap set_heap];
      split_and!; try done;
      intros a Ha; by rewrite list_lookup_insert_ne.
  - unfold getattr. destruct (heap w !! self) as [[ds|? ?]|];
      try destruct (ds !! "width");
      cbn [snd stdout clock interrupt ext heap set_heap];
      split_and!; try done;
      intros a Ha; by rewrite list_lookup_insert_ne.
  - cbn [snd stdout clock interrupt ext heap set_heap].
    split_and!; try done.
    intros a Ha. by rewrite list_lookup_insert_ne.
  - done.
Qed.

Lemma next_times_state w g r (d : gmap string Z) (L W : Z) k : ∀ j,
  heap w !! r = Some (RectangleObj d) →
  d !! "length" = Some L → d !! "width" = Some W →
  heap w !! g = Some (GeneratorObj r (state_after j)) →
  heap (next_times k g w) !! r = Some (RectangleObj d) ∧
  heap (next_times k g w) !! g = Some (GeneratorObj r (state_after (j + k))).
Proof.
  revert w. induction k as [|k IH]; intros w j Hr HL HW Hg.
  - rewrite Nat.add_0_r. by split.
  - assert (r ≠ g) as Hne by (intros ->; congruence).
    unfold next_times, run_ops in *. cbn [replicate foldl run_op].
    rewrite (next_reads w g r d L W j Hr HL HW Hg). cbn [snd].
    replace (j + Datatypes.S k) with (Datatypes.S j + k) by lia.
    apply IH; [by rewrite advance_lookup_other|done|done|].
    by eapply advance_lookup_self.
Qed.

Lemma list_of_from w g r (d : gmap string Z) (L W : Z) k fuel :
  3 ≤ fuel →
  heap w !! r = Some (RectangleObj d) →
  d !! "length" = Some L → d !! "width" = Some W →
  heap w !! g = Some (GeneratorObj r (state_after k)) →
  (list_of fuel g w).1 =
    Returns (drop k [ {[ "length" := L ]}; {[ "width" := W ]} ]).
Proof.
  intros Hfuel Hr HL HW Hg.
  assert (r ≠ g) as Hne by (intros ->; congruence).
  assert (∀ w1 j, heap w1 !! r = Some (RectangleObj d) →
            heap w1 !! g = Some (GeneratorObj r (state_after j)) →
            heap (advance g r j w1) !! r = Some (RectangleObj d) ∧
            heap (advance g r j w1) !! g
              = Some (GeneratorObj r (state_after (Datatypes.S j)))) as Hadv.
  { intros w1 j H1 H2. split; [by rewrite advance_lookup_other|].
    by eapply advance_lookup_self. }
  destruct fuel as [|[|[|fuel]]]; [lia..|]. clear Hfuel.
  destruct k as [|[|[|k]]].
  - destruct (Hadv w 0 Hr Hg) as [Hr1 Hg1].
    destruct (Hadv _ 1 Hr1 Hg1) as [Hr2 Hg2].
    cbn [list_of]. rewrite (next_reads w g r d L W 0 Hr HL HW Hg).
    cbn [kth_next]. unfold mbind at 1, M_bind at 1.
    rewrite (next_reads _ g r d L W 1 Hr1 HL HW Hg1).
    cbn [kth_next]. unfold mbind at 1, M_bind at 1.
    rewrite (next_reads _ g r d L W 2 Hr2 HL HW Hg2). done.
  - destruct (Hadv w 1 Hr Hg) as [Hr1 Hg1].
    cbn [list_of]. rewrite (next_reads w g r d L W 1 Hr HL HW Hg).
    cbn [kth_next]. unfold mbind at 1, M_bind at 1.
    rewrite (next_reads _ g r d L W 2 Hr1 HL HW Hg1). done.
  - cbn [list_of]. by rewrite (next_reads w g r d L W 2 Hr HL HW Hg).
  - cbn [list_of].
    by rewrite (next_reads w g r d L W (3 + k) Hr HL HW Hg).
Qed.

(** A generator is consumed once.  After [k] calls of [next], [list(g)]
    gives what is left of the two mappings (both, the second only, or
    nothing), and so [list(g)] on an exhausted generator is empty: only a
    new call of [__iter__] starts over. *)
Theorem list_of_gives_the_rest w (L W : Z) (k fuel : nat) :
  3 ≤ fuel →
  ∃ r g w1,
    (r ← Rectangle L W; g ← Rectangle___iter__ r; mret (r, g)) w
      = (Returns (r, g), w1) ∧
    (list_of fuel g (next_times k g w1)).1 =
      Returns (drop k [ {[ "length" := L ]}; {[ "width" := W ]} ]) ∧
    ((first ← list_of fuel g; second ← list_of fuel g;
      mret (first, second)) w1).1 =
      Returns ([ {[ "length" := L ]}; {[ "width" := W ]} ], []).
Proof.
  intros Hfuel.
  destruct (one_iterator w L W) as (w1 & Hrun & Hheap & _).
  assert (heap w1 !! length (heap w) = Some (RectangleObj (rect_dict L W)))
    as Hr by (rewrite Hheap; apply lookup_rect).
  assert (heap w1 !! Datatypes.S (length (heap w))
          = Some (GeneratorObj (length (heap w)) (state_after 0)))
    as Hg by (rewrite Hheap; apply lookup_gen).
  eexists _, _, w1. split; [exact Hrun|]. split.
  - destruct (next_times_state w1 _ _ _ L W k 0 Hr
                (rect_dict_length L W) (rect_dict_width L W) Hg) as [Hr' Hg'].
    exact (list_of_from _ _ _ _ L W _ fuel Hfuel Hr'
             (rect_dict_length L W) (rect_dict_width L W) Hg').
  - unfold mbind, M_bind.
    rewrite (list_of_generator w1 _ _ L W fuel Hfuel Hr Hg).
    set (w2 := set_heap _ w1).
    assert (heap w2 !! length (heap w) = Some (RectangleObj (rect_dict L W)))
      as Hr2.
    { subst w2. cbn [heap set_heap].
      rewrite list_lookup_insert_ne; [done|apply Nat.neq_succ_diag_l]. }
    assert (heap w2 !! Datatypes.S (length (heap w))
            = Some (GeneratorObj (length (heap w)) (state_after 3))) as Hg2.
    { subst w2. cbn [heap set_heap state_after].
      apply list_lookup_insert_eq. by eapply lookup_lt_Some. }
    pose proof (list_of_from w2 _ _ _ L W 3 fuel Hfuel Hr2
                  (rect_dict_length L W) (rect_dict_width L W) Hg2) as Hrest.
    cbn [drop] in Hrest.
    destruct (list_of fuel _ w2) as [[l|e|] w3]; cbn [fst] in Hrest;
      by simplify_eq.
Qed.

End MoreRectangleFacts.

Section AttributeFacts.
Context {S : Type}.
Implicit Types (w : world S) (a g r : addr) (k : nat).

Lemma heap_after_insert w a (o o' : obj) b :
  heap w !! a = Some o →
  heap (set_heap (<[a := o']> (heap w)) w) !! b =
    if decide (a = b) then Some o' else heap w !! b.
Proof.
  intros Ha. cbn [heap set_heap]. case_decide as Hab.
  - subst b. apply list_lookup_insert_eq. by eapply lookup_lt_Some.
  - by apply list_lookup_insert_ne.
Qed.

(** The generator reads an attribute when it reaches the [yield] that
    uses it, not when it is made: an assignment to [length] after
    [iter(r)], or to [width] after the first [next], shows in the mapping
    yielded afterwards. *)
Theorem generator_reads_attributes_late w (L W L' W' : Z) :
  ∃ r g w1,
    (r ← Rectangle L W; g ← Rectangle___iter__ r; mret (r, g)) w
      = (Returns (r, g), w1) ∧
    ((setattr r "length" L';;
      first ← next g;
      setattr r "width" W';;
      second ← next g;
      mret (first, second)) w1).1 =
      Returns ({[ "length" := L' ]}, {[ "width" := W' ]}).
Proof.
  destruct (one_iterator w L W) as (w1 & Hrun & Hheap & _).
  set (r := length (heap w)) in *. set (g := Datatypes.S r) in *.
  assert (r ≠ g) as Hne by (subst g; lia).
  assert (heap w1 !! r = Some (RectangleObj (rect_dict L W)))
    as Hr by (rewrite Hheap; apply lookup_rect).
  assert (heap w1 !! g = Some (GeneratorObj r (state_after 0)))
    as Hg by (rewrite Hheap; apply lookup_gen).
  exists r, g, w1. split; [exact Hrun|].
  unfold mbind, M_bind.
  rewrite (setattr_instance w1 r _ "length" L' Hr).
  set (d1 := <["length" := L']> (rect_dict L W)).
  set (w2 := set_heap _ w1).
  assert (heap w2 !! r = Some (RectangleObj d1)) as Hr2.
  { subst w2. rewrite (heap_after_insert w1 r _ _ r Hr). by rewrite decide_True. }
  assert (heap w2 !! g = Some (GeneratorObj r (state_after 0))) as Hg2.
  { subst w2. rewrite (heap_after_insert w1 r _ _ g Hr).
    by rewrite decide_False. }
  assert (d1 !! "length" = Some L') as HL1 by apply lookup_insert_eq.
  assert (d1 !! "width" = Some W) as HW1.
  { subst d1. rewrite lookup_insert_ne by done. apply rect_dict_width. }
  rewrite (next_reads w2 g r d1 L' W 0 Hr2 HL1 HW1 Hg2). cbn [kth_next].
  set (w3 := advance g r 0 w2).
  assert (heap w3 !! r = Some (RectangleObj d1)) as Hr3
    by (subst w3; by rewrite advance_lookup_other).
  assert (heap w3 !! g = Some (GeneratorObj r (state_after 1))) as Hg3
    by (subst w3; by eapply advance_lookup_self).
  rewrite (setattr_instance w3 r _ "width" W' Hr3).
  set (d2 := <["width" := W']> d1).
  set (w4 := set_heap _ w3).
  assert (heap w4 !! r = Some (RectangleObj d2)) as Hr4.
  { subst w4. rewrite (heap_after_insert w3 r _ _ r Hr3).
    by rewrite decide_True. }
  assert (heap w4 !! g = Some (GeneratorObj r (state_after 1))) as Hg4.
  { subst w4. rewrite (heap_after_insert w3 r _ _ g Hr3).
    by rewrite decide_False. }
  assert (d2 !! "length" = Some L') as HL2.
  { subst d2. by rewrite lookup_insert_ne. }
  assert (d2 !! "width" = Some W') as HW2 by apply lookup_insert_eq.
  rewrite (next_reads w4 g r d2 L' W' 1 Hr4 HL2 HW2 Hg4). reflexivity.
Qed.

Lemma next_missing_length w g r (d : gmap string Z) :
  heap w !! r = Some (RectangleObj d) → d !! "length" = None →
  heap w !! g = Some (GeneratorObj r GEN_CREATED) →
  next g w =
    (Raises (no_attribute "Rectangle" "length"),
     set_heap (<[g := GeneratorObj r GEN_CLOSED]> (heap w)) w).
Proof.
  intros Hr Hd Hg. unfold next. rewrite Hg.
  unfold run_to_yield, getattr. by rewrite Hr, Hd.
Qed.

(** A missing attribute ends the iteration for good.  Once [del r.length]
    has run, the first [next] raises [AttributeError] and yields nothing,
    and the generator is finished: the next call raises [StopIteration],
    the [width] mapping is never yielded. *)
Theorem deleted_attribute_ends_iteration w (L W : Z) :
  ∃ r g w1 w2 w3,
    (r ← Rectangle L W; g ← Rectangle___iter__ r; mret (r, g)) w
      = (Returns (r, g), w1) ∧
    delattr r "length" w1 = (Returns tt, w2) ∧
    next g w2 = (Raises (no_attribute "Rectangle" "length"), w3) ∧
    exc_cls (no_attribute "Rectangle" "length") = AttributeError_ ∧
    (next g w3).1 = Raises (Exc StopIteration_ EmptyString) ∧
    (getattr r "width" w3).1 = Returns W.
Proof.
  destruct (one_iterator w L W) as (w1 & Hrun & Hheap & _).
  set (r := length (heap w)) in *. set (g := Datatypes.S r) in *.
  assert (r ≠ g) as Hne by (subst g; lia).
  assert (heap w1 !! r = Some (RectangleObj (rect_dict L W)))
    as Hr by (rewrite Hheap; apply lookup_rect).
  assert (heap w1 !! g = Some (GeneratorObj r GEN_CREATED))
    as Hg by (rewrite Hheap; apply lookup_gen).
  set (d1 := delete "length" (rect_dict L W)).
  set (w2 := set_heap (<[r := RectangleObj d1]> (heap w1)) w1).
  assert (heap w2 !! r = Some (RectangleObj d1)) as Hr2.
  { subst w2. rewrite (heap_after_insert w1 r _ _ r Hr). by rewrite decide_True. }
  assert (heap w2 !! g = Some (GeneratorObj r GEN_CREATED)) as Hg2.
  { subst w2. rewrite (heap_after_insert w1 r _ _ g Hr).
    by rewrite decide_False. }
  assert (d1 !! "length" = None) as Hd1 by apply lookup_delete_eq.
  assert (d1 !! "width" = Some W) as Hd1w.
  { subst d1. rewrite lookup_delete_ne by done. apply rect_dict_width. }
  set (w3 := set_heap (<[g := GeneratorObj r GEN_CLOSED]> (heap w2)) w2).
  assert (heap w3 !! g = Some (GeneratorObj r GEN_CLOSED)) as Hg3.
  { subst w3. rewrite (heap_after_insert w2 g _ _ g Hg2).
    by rewrite decide_True. }
  assert (heap w3 !! r = Some (RectangleObj d1)) as Hr3.
  { subst w3. rewrite (heap_after_insert w2 g _ _ r Hg2).
    by rewrite decide_False. }
  exists r, g, w1, w2, w3. split_and!.
  - exact Hrun.
  - unfold delattr. rewrite Hr, rect_dict_length. reflexivity.
  - exact (next_missing_length w2 g r d1 Hr2 Hd1 Hg2).
  - reflexivity.
  - unfold next. by rewrite Hg3.
  - by rewrite (getattr_instance w3 r d1 "width" W Hr3 Hd1w).
Qed.

(** Rectangles share nothing: a new one has an address of its own and
    leaves every existing object as it was, and an assignment to an
    attribute of one does not show in the other. *)
Theorem Rectangles_share_no_attributes w (L1 W1 L2 W2 v : Z) (key : string) :
  ∃ r1 r2 w2,
    (r1 ← Rectangle L1 W1; r2 ← Rectangle L2 W2; mret (r1, r2)) w
      = (Returns (r1, r2), w2) ∧
    r1 ≠ r2 ∧
    heap w !! r1 = None ∧ heap w !! r2 = None ∧
    (∀ a o, heap w !! a = Some o → heap w2 !! a = Some o) ∧
    ((setattr r1 key v;; getattr r2 "length") w2).1 = Returns L2 ∧
    ((setattr r1 key v;; getattr r2 "width") w2).1 = Returns W2.
Proof.
  set (r1 := length (heap w)). set (r2 := Datatypes.S r1).
  set (w2 := set_heap (heap w ++ [ RectangleObj (rect_dict L1 W1);
                                     RectangleObj (rect_dict L2 W2) ]) w).
  assert (heap w2 !! r1 = Some (RectangleObj (rect_dict L1 W1))) as H1
    by apply lookup_rect.
  assert (heap w2 !! r2 = Some (RectangleObj (rect_dict L2 W2))) as H2
    by apply lookup_gen.
  assert (r1 ≠ r2) as Hne by (subst r2; lia).
  exists r1, r2, w2. split_and!.
  - unfold mbind, M_bind. rewrite !Rectangle_returns.
    unfold mret, M_ret. cbn [heap set_heap].
    rewrite length_app. cbn [length].
    replace (length (heap w) + 1) with r2 by (subst r2 r1; lia).
    subst w2. unfold set_heap. cbn [stdout heap clock ident interrupt ext].
    by rewrite <- app_assoc.
  - exact Hne.
  - apply lookup_ge_None. subst r1. lia.
  - apply lookup_ge_None. subst r2 r1. lia.
  - intros a o Ha. subst w2. cbn [heap set_heap]. by apply lookup_app_l_Some.
  - unfold mbind, M_bind. rewrite (setattr_instance w2 r1 _ key v H1).
    rewrite (getattr_instance _ r2 (rect_dict L2 W2) "length" L2);
      [done| |apply rect_dict_length].
    rewrite (heap_after_insert w2 r1 _ _ r2 H1). by rewrite decide_False.
  - unfold mbind, M_bind. rewrite (setattr_instance w2 r1 _ key v H1).
    rewrite (getattr_instance _ r2 (rect_dict L2 W2) "width" W2);
      [done| |apply rect_dict_width].
    rewrite (heap_after_insert w2 r1 _ _ r2 H1). by rewrite decide_False.
Qed.

End AttributeFacts.

(** ** The [for] loop over a rectangle *)

Section LoopFacts.
Context {S : Type}.
Implicit Types (w : world S) (a g r : addr) (k : nat).

Lemma repr_dict_length (L : Z) :
  repr_dict {[ "length" := L ]} = "{'length': " +:+ pretty L +:+ "}".
Proof. unfold repr_dict. rewrite map_to_list_singleton. reflexivity. Qed.

Lemma repr_dict_width (W : Z) :
  repr_dict {[ "width" := W ]} = "{'width': " +:+ pretty W +:+ "}".
Proof. unfold repr_dict. rewrite map_to_list_singleton. reflexivity. Qed.


(** The fourth probe, from any state. *)
Lemma test_rectangle_iteration_runs w (fuel : nat) :
  3 ≤ fuel →
  test_rectangle_iteration fuel w =
    (Returns tt,
     World
       (stdout w ++ [ header_4; "{'length': 10}"; "{'width': 5}"; EmptyString ])
       (heap w ++ [ RectangleObj (rect_dict 10 5);
                    GeneratorObj (length (heap w)) GEN_CLOSED ])
       (clock w) (ident w) (interrupt w) (ext w)).
Proof.
  intros Hfuel.
  unfold test_rectangle_iteration, mbind, M_bind.
  rewrite print_printed, Rectangle_returns.
  unfold Rectangle___iter__, alloc. cbn [heap set_heap printed set_stdout].
  rewrite (for_in_generator _ _ (length (heap w)) 10 5 fuel Hfuel).
  - assert (repr_dict {[ "length" := 10%Z ]} = "{'length': 10}") as ->
      by (vm_compute; reflexivity).
    assert (repr_dict {[ "width" := 5%Z ]} = "{'width': 5}") as ->
      by (vm_compute; reflexivity).
    unfold printed, print, set_stdout, set_heap.
    cbn [stdout heap clock ident interrupt ext].
    rewrite <- !app_assoc. cbn [app].
    replace (length (heap w ++ [RectangleObj (rect_dict 10 5)]))
      with (Datatypes.S (length (heap w))) by (rewrite length_app; cbn; lia).
    rewrite insert_app_r_alt by lia.
    by replace (Datatypes.S (length (heap w)) - length (heap w)) with 1
      by lia.
  - cbn [heap set_heap].
    rewrite lookup_app_l by (rewrite length_app; cbn; lia).
    apply lookup_alloc.
  - cbn [heap set_heap]. apply lookup_alloc.
Qed.


End LoopFacts.

(** ** The probes on the in-memory framework *)

Section MoreMemoryFacts.
Variable in_txn : bool.
Implicit Types (w : world datastore) (s : datastore).

Lemma store_ok_fresh_pk s : store_ok s → next_pk s ∉ profile (db s).
Proof.
  intros [_ Hall] Hin. rewrite Forall_forall in Hall.
  specialize (Hall _ Hin). lia.
Qed.

Lemma created_ok (name : string) s :
  store_ok s → store_ok (created in_txn name s).
Proof.
  intros [Hoc Hall]. split; [done|]. unfold created.
  cbn [db profile next_pk add_profile add_user].
  apply Forall_app. split.
  - eapply Forall_impl; [exact Hall|]. intros x Hx. cbn in *. lia.
  - apply Forall_singleton. lia.
Qed.

Lemma rolled_back_ok s : store_ok s → store_ok (rolled_back in_txn s).
Proof.
  intros [Hoc Hall]. unfold rolled_back. destruct in_txn; (split; [done|]).
  - cbn [db profile next_pk].
    eapply Forall_impl; [exact Hall|]. intros x Hx. cbn in *. lia.
  - cbn [db profile next_pk add_profile]. apply Forall_app. split.
    + eapply Forall_impl; [exact Hall|]. intros x Hx. cbn in *. lia.
    + apply Forall_singleton. lia.
Qed.

Lemma mem_create_ok (name : string) w :
  interrupt w = false → store_ok (ext w) →
  name ∉ username <$> auth_user (db (ext w)) →
  User_objects_create (memory_framework in_txn)
    (post_save_receivers (memory_framework in_txn)) name w =
    (Returns (mkUser (next_pk (ext w)) name),
     World (stdout w ++ signal_lines (ident w)) (heap w) (clock w + 3)
       (ident w) false (created in_txn name (ext w))).
Proof.
  intros Hint Hok Hname.
  apply (mem_create_new in_txn name w Hint (proj1 Hok) Hname).
  by apply store_ok_fresh_pk.
Qed.

Lemma test_synchronous_signal_mem w :
  interrupt w = false → store_ok (ext w) →
  "sync_test_user" ∉ username <$> auth_user (db (ext w)) →
  test_synchronous_signal (memory_framework in_txn) w =
    (Returns tt,
     World (stdout w ++ [header_1; "Creating user..."] ++
              signal_lines (ident w) ++ [created_line])
       (heap w) (clock w + 3) (ident w) false
       (created in_txn "sync_test_user" (ext w))).
Proof.
  intros Hint Hok Hname. rewrite test_synchronous_signal_unfold.
  rewrite mem_create_ok; [|exact Hint|exact Hok|exact Hname].
  unfold printed, set_stdout.
  cbn [stdout heap clock ident interrupt ext].
  by rewrite <- !app_assoc.
Qed.

Lemma test_thread_signal_mem w :
  interrupt w = false → store_ok (ext w) →
  "thread_test_user" ∉ username <$> auth_user (db (ext w)) →
  test_thread_signal (memory_framework in_txn) w =
    (Returns tt,
     World (stdout w ++ [header_2; main_thread_line (ident w)] ++
              signal_lines (ident w) ++ [same_thread_line])
       (heap w) (clock w + 3) (ident w) false
       (created in_txn "thread_test_user" (ext w))).
Proof.
  intros Hint Hok Hname. rewrite test_thread_signal_unfold.
  rewrite mem_create_ok; [|exact Hint|exact Hok|exact Hname].
  unfold printed, set_stdout.
  cbn [stdout heap clock ident interrupt ext].
  by rewrite <- !app_assoc.
Qed.

Lemma test_transaction_signal_mem w :
  interrupt w = false → store_ok (ext w) →
  "rollback_user" ∉ username <$> auth_user (db (ext w)) →
  test_transaction_signal (memory_framework in_txn) w =
    (Returns tt,
     World (stdout w ++ [header_3] ++ signal_lines (ident w) ++
              [ caught_line forced_error;
                count_line (Z.of_nat (length
                   (profile (db (rolled_back in_txn (ext w))))));
                verdict_line ])
       (heap w) (clock w + 3) (ident w) false
       (rolled_back in_txn (ext w))).
Proof.
  intros Hint Hok Hname.
  pose proof (store_ok_fresh_pk _ Hok) as Hpk. destruct Hok as [Hoc _].
  destruct w as [out h c i intr [[us ps] sp k oc]].
  cbn [ext own_connection db auth_user profile next_pk interrupt] in *.
  subst oc intr. unfold rolled_back.
  destruct in_txn.
  - etransitivity.
    { eapply (test_transaction_signal_caught _ _ forced_error);
        [reflexivity| |].
      - eapply atomic_block_forced;
          [reflexivity
          |apply (mem_create_new true);
             [reflexivity|reflexivity|exact Hname|exact Hpk]
          |reflexivity].
      - reflexivity. }
    unfold printed, set_stdout. world_simpl.
    rewrite <- !app_assoc. reflexivity.
  - etransitivity.
    { eapply (test_transaction_signal_caught _ _ forced_error);
        [reflexivity| |].
      - eapply atomic_block_forced;
          [reflexivity
          |apply (mem_create_new false);
             [reflexivity|reflexivity|exact Hname|exact Hpk]
          |reflexivity].
      - reflexivity. }
    unfold printed, set_stdout. world_simpl.
    rewrite <- !app_assoc. reflexivity.
Qed.

End MoreMemoryFacts.

Section MemoryProbes.
Variable in_txn : bool.
Implicit Types (w : world datastore) (s : datastore).

(** On the in-memory framework the first probe waits for the receivers:
    its closing line comes after everything the three receivers print,
    three seconds have passed when it returns, and since every receiver is
    connected to every creation of a user, the probe leaves one new user
    and one new profile. *)
Theorem test_synchronous_signal_waits_for_receivers w :
  interrupt w = false → store_ok (ext w) →
  "sync_test_user" ∉ username <$> auth_user (db (ext w)) →
  ∃ w',
    test_synchronous_signal (memory_framework in_txn) w = (Returns tt, w') ∧
    stdout w' =
      stdout w ++
        [ header_1; "Creating user...";
          "[Signal] Started processing...";
          "[Signal] Finished processing.";
          "[Signal] Thread ID: " +:+ pretty (ident w);
          "[Signal] Profile created inside same transaction";
          created_line ] ∧
    clock w' = (clock w + 3)%Z ∧
    auth_user (db (ext w')) =
      auth_user (db (ext w)) ++ [mkUser (next_pk (ext w)) "sync_test_user"] ∧
    profile (db (ext w')) = profile (db (ext w)) ++ [next_pk (ext w)].
Proof.
  intros Hint Hok Hname. eexists.
  split; [by apply test_synchronous_signal_mem|]. done.
Qed.

(** On the in-memory framework the second probe prints the same thread id
    twice, once for the caller and once from [thread_check]. *)
Theorem test_thread_signal_same_thread w :
  interrupt w = false → store_ok (ext w) →
  "thread_test_user" ∉ username <$> auth_user (db (ext w)) →
  ∃ w',
    test_thread_signal (memory_framework in_txn) w = (Returns tt, w') ∧
    stdout w' =
      stdout w ++
        [ header_2;
          "[Main] Thread ID: " +:+ pretty (ident w);
          "[Signal] Started processing...";
          "[Signal] Finished processing.";
          "[Signal] Thread ID: " +:+ pretty (ident w);
          "[Signal] Profile created inside same transaction";
          same_thread_line ] ∧
    ident w' = ident w.
Proof.
  intros Hint Hok Hname. eexists.
  split; [by apply test_thread_signal_mem|]. done.
Qed.

(** The third probe can be run again: it gives the name back, so a second
    run on the store it leaves returns as well; both runs leave the user
    table as it was, and the profile table too when the receivers write
    inside the transaction. *)
Theorem test_transaction_signal_repeatable w :
  interrupt w = false → store_ok (ext w) →
  "rollback_user" ∉ username <$> auth_user (db (ext w)) →
  ∃ w1 w2,
    test_transaction_signal (memory_framework in_txn) w = (Returns tt, w1) ∧
    test_transaction_signal (memory_framework in_txn) w1 = (Returns tt, w2) ∧
    auth_user (db (ext w1)) = auth_user (db (ext w)) ∧
    auth_user (db (ext w2)) = auth_user (db (ext w)) ∧
    (in_txn = true →
     profile (db (ext w1)) = profile (db (ext w)) ∧
     profile (db (ext w2)) = profile (db (ext w))).
Proof.
  intros Hint Hok Hname. eexists _, _.
  split; [by apply test_transaction_signal_mem|].
  split.
  - apply test_transaction_signal_mem; [done|by apply rolled_back_ok|].
    cbn [ext]. unfold rolled_back. by destruct in_txn.
  - cbn [ext]. unfold rolled_back.
    destruct in_txn; cbn [db auth_user profile next_pk add_profile];
      split_and!; try done.
Qed.

Lemma run_all_tests_mem w (fuel : nat) :
  3 ≤ fuel →
  interrupt w = false → store_ok (ext w) →
  "sync_test_user" ∉ username <$> auth_user (db (ext w)) →
  "thread_test_user" ∉ username <$> auth_user (db (ext w)) →
  "rollback_user" ∉ username <$> auth_user (db (ext w)) →
  ∃ w',
    run_all_tests (memory_framework in_txn) fuel w = (Returns tt, w') ∧
    stdout w' =
      stdout w ++
        full_run_lines (ident w)
          (Z.of_nat (length (profile (db (ext w)))) +
           (if in_txn then 2 else 3)) ∧
    clock w' = (clock w + 9)%Z ∧
    interrupt w' = false ∧
    ext w' =
      rolled_back in_txn
        (created in_txn "thread_test_user"
           (created in_txn "sync_test_user" (ext w))).
Proof.
  intros Hfuel Hint Hok Hn1 Hn2 Hn3.
  unfold run_all_tests, mbind, M_bind.
  rewrite test_synchronous_signal_mem by done.
  rewrite test_thread_signal_mem; [|done|by apply created_ok|]; cycle 1.
  { cbn [ext created db auth_user add_profile add_user].
    rewrite fmap_app. intros [?|H]%elem_of_app; [done|].
    by apply list_elem_of_singleton in H. }
  rewrite test_transaction_signal_mem;
    [|done|by apply created_ok, created_ok|]; cycle 1.
  { cbn [ext created db auth_user add_profile add_user].
    rewrite !fmap_app. intros [[?|H]%elem_of_app|H]%elem_of_app; [done|..];
      by apply list_elem_of_singleton in H. }
  cbn [stdout heap clock ident interrupt ext].
  rewrite test_rectangle_iteration_runs by done. eexists.
  split; [reflexivity|].
  cbn [stdout heap clock ident interrupt ext].
  split_and!; try done; [|lia].
  unfold full_run_lines. rewrite <- !app_assoc. do 4 f_equal.
  unfold rolled_back, created.
  destruct in_txn; cbn [db profile add_profile add_user next_pk];
    rewrite !length_app; cbn [length app];
    repeat f_equal; lia.
Qed.

End MemoryProbes.

(** ** Runs of the whole script, interrupts and profiles *)

Section MemoryRuns.
Variable in_txn : bool.
Implicit Types (w : world datastore) (s : datastore).

(** A complete first run on the in-memory framework: all four probes
    return, the transcript is [full_run_lines], nine seconds are slept,
    and the count the third probe prints is at least two even when the
    receivers write inside the transaction, because the first two probes
    have each left a profile behind. *)
Theorem run_all_tests_transcript w (fuel : nat) :
  3 ≤ fuel →
  interrupt w = false → store_ok (ext w) →
  "sync_test_user" ∉ username <$> auth_user (db (ext w)) →
  "thread_test_user" ∉ username <$> auth_user (db (ext w)) →
  "rollback_user" ∉ username <$> auth_user (db (ext w)) →
  ∃ w' n,
    run_all_tests (memory_framework in_txn) fuel w = (Returns tt, w') ∧
    stdout w' = stdout w ++ full_run_lines (ident w) n ∧
    n = (Z.of_nat (length (profile (db (ext w)))) +
         (if in_txn then 2 else 3))%Z ∧
    (2 ≤ n)%Z ∧
    clock w' = (clock w + 9)%Z.
Proof.
  intros Hfuel Hint Hok Hn1 Hn2 Hn3.
  destruct (run_all_tests_mem in_txn w fuel Hfuel Hint Hok Hn1 Hn2 Hn3)
    as (w' & Hrun & Hout & Hclock & _).
  exists w', (Z.of_nat (length (profile (db (ext w)))) +
              (if in_txn then 2 else 3))%Z.
  split_and!; try done. destruct in_txn; lia.
Qed.

(** The script cannot be run twice on one store: after a complete run the
    name of the first probe is taken, so a second [run_all_tests] ends in
    the first probe with the uniqueness error, after its two opening
    lines, and none of the other probes runs. *)
Theorem run_all_tests_not_rerunnable w (fuel : nat) :
  3 ≤ fuel →
  interrupt w = false → store_ok (ext w) →
  "sync_test_user" ∉ username <$> auth_user (db (ext w)) →
  "thread_test_user" ∉ username <$> auth_user (db (ext w)) →
  "rollback_user" ∉ username <$> auth_user (db (ext w)) →
  ∃ w1,
    run_all_tests (memory_framework in_txn) fuel w = (Returns tt, w1) ∧
    run_all_tests (memory_framework in_txn) fuel w1 =
      (Raises username_taken, printed [header_1; "Creating user..."] w1).
Proof.
  intros Hfuel Hint Hok Hn1 Hn2 Hn3.
  destruct (run_all_tests_mem in_txn w fuel Hfuel Hint Hok Hn1 Hn2 Hn3)
    as (w1 & Hrun & _ & _ & _ & Hext).
  exists w1. split; [exact Hrun|].
  unfold run_all_tests, mbind, M_bind.
  rewrite test_synchronous_signal_unfold.
  cbn [User_objects_create memory_framework].
  rewrite mem_create_taken; [done|].
  unfold printed, set_stdout. cbn [ext]. rewrite Hext.
  unfold rolled_back, created.
  destruct in_txn; cbn [db auth_user add_profile add_user];
    rewrite !fmap_app; cbn [fmap list_fmap username]; set_solver.
Qed.

Lemma mem_create_interrupted (name : string) w :
  interrupt w = true → own_connection (ext w) = false →
  name ∉ username <$> auth_user (db (ext w)) →
  User_objects_create (memory_framework in_txn)
    (post_save_receivers (memory_framework in_txn)) name w =
    (Raises keyboard_interrupt,
     World (stdout w ++ ["[Signal] Started processing..."]) (heap w)
       (clock w) (ident w) false (interrupted_creation name (ext w))).
Proof.
  destruct w as [out h c i intr [[us ps] sp k oc]].
  cbn [ext own_connection db auth_user profile next_pk interrupt].
  intros -> -> Hname.
  cbn [User_objects_create memory_framework].
  unfold mem_User_objects_create.
  cbn [ext db auth_user]. rewrite decide_False by done.
  unfold post_save_receivers, post_save_send, interrupted_creation.
  destruct in_txn.
  all: unfold mbind, M_bind, take_pk, write, mret, M_ret; world_simpl.
  all: unfold slow_signal_handler.
  all: unfold mbind, M_bind, print, time_sleep.
  all: world_simpl; reflexivity.
Qed.

Lemma test_transaction_signal_passes {S : Type} (fw : Framework S)
    (w : world S) (e : exc) (w1 : world S) :
  atomic_block fw (printed [header_3] w) = (Raises e, w1) →
  isinstance_Exception (exc_cls e) = false →
  test_transaction_signal fw w = (Raises e, w1).
Proof.
  intros Hblock Hcls.
  unfold test_transaction_signal, try_except_Exception, mbind, M_bind.
  rewrite print_printed.
  change (nl +:+ "=== Test 3: Transaction Behavior ===") with header_3.
  by rewrite Hblock, Hcls.
Qed.

(** An interrupt during the first probe leaves a user without a profile.
    The key is pressed while [slow_signal_handler] sleeps: the user row
    is already written and nothing undoes it, the other two receivers do
    not run, and [KeyboardInterrupt] leaves the probe before its closing
    line. *)
Theorem test_synchronous_signal_interrupted w :
  interrupt w = true → own_connection (ext w) = false →
  "sync_test_user" ∉ username <$> auth_user (db (ext w)) →
  ∃ w',
    test_synchronous_signal (memory_framework in_txn) w
      = (Raises keyboard_interrupt, w') ∧
    stdout w' =
      stdout w ++ [ header_1; "Creating user...";
                    "[Signal] Started processing..." ] ∧
    clock w' = clock w ∧
    auth_user (db (ext w')) =
      auth_user (db (ext w)) ++ [mkUser (next_pk (ext w)) "sync_test_user"] ∧
    profile (db (ext w')) = profile (db (ext w)).
Proof.
  intros Hint Hoc Hname. eexists. split.
  - rewrite test_synchronous_signal_unfold.
    rewrite mem_create_interrupted; [reflexivity|done..].
  - unfold printed, set_stdout.
    cbn [stdout heap clock ident interrupt ext interrupted_creation db
         auth_user profile add_user].
    by rewrite <- !app_assoc.
Qed.

(** The same interrupt during the third probe leaves the tables as they
    were: the handler does not catch [KeyboardInterrupt], but the
    transactional scope still rolls the user back on the way out. *)
Theorem test_transaction_signal_interrupted w :
  interrupt w = true → own_connection (ext w) = false →
  "rollback_user" ∉ username <$> auth_user (db (ext w)) →
  ∃ w',
    test_transaction_signal (memory_framework in_txn) w
      = (Raises keyboard_interrupt, w') ∧
    stdout w' = stdout w ++ [ header_3; "[Signal] Started processing..." ] ∧
    db (ext w') = db (ext w) ∧
    savepoints (ext w') = savepoints (ext w).
Proof.
  intros Hint Hoc Hname.
  destruct w as [out h c i intr [[us ps] sp k oc]].
  cbn [ext own_connection db auth_user profile next_pk interrupt] in *.
  subst oc intr. eexists. split.
  - apply test_transaction_signal_passes; [|reflexivity].
    eapply atomic_block_create_raises;
      [reflexivity
      |apply mem_create_interrupted; [reflexivity|reflexivity|exact Hname]
      |reflexivity].
  - unfold printed, set_stdout, interrupted_creation. world_simpl.
    by rewrite <- !app_assoc.
Qed.

(** One profile per user.  For a user that is in the user table and has
    no profile yet, [create_profile] adds the profile and prints its line,
    and a second call for the same user raises the data layer's integrity
    error without printing or writing anything. *)
Theorem create_profile_once_per_user w (u : User) :
  u ∈ auth_user (db (ext w)) →
  pk u ∉ profile (db (ext w)) →
  ∃ w1 e,
    create_profile (memory_framework in_txn) u w = (Returns tt, w1) ∧
    profile (db (ext w1)) = profile (db (ext w)) ++ [pk u] ∧
    auth_user (db (ext w1)) = auth_user (db (ext w)) ∧
    stdout w1 =
      stdout w ++ ["[Signal] Profile created inside same transaction"] ∧
    create_profile (memory_framework in_txn) u w1 = (Raises e, w1) ∧
    exc_cls e = IntegrityError_.
Proof.
  intros _ Hpk. eexists _, profile_taken. split.
  - unfold create_profile, mbind, M_bind.
    cbn [Profile_objects_create memory_framework].
    unfold mem_Profile_objects_create. rewrite decide_False by done.
    unfold write. rewrite print_printed. reflexivity.
  - unfold printed. world_simpl. split_and!; try done.
    unfold create_profile, mbind, M_bind.
    cbn [Profile_objects_create memory_framework].
    unfold mem_Profile_objects_create. world_simpl.
    rewrite decide_True; [done|]. set_solver.
Qed.

End MemoryRuns.

(** ** The further properties on concrete inputs *)

Lemma memory_never_swallows (in_txn : bool) :
  never_swallows (memory_framework in_txn).
Proof.
  intros e w r w' H. cbn [atomic___exit__ memory_framework] in H.
  unfold mem_atomic___exit__ in H.
  destruct (savepoints (ext w)), e; by simplify_eq.
Qed.

Lemma fresh_world_ok : store_ok (ext fresh_world).
Proof. split; [reflexivity|apply Forall_nil_2]. Qed.

Lemma fresh_world_free (name : string) :
  name ∉ username <$> auth_user (db (ext fresh_world)).
Proof. apply not_elem_of_nil. Qed.

Lemma atomic_block_never_returns_memory :
  never_swallows (memory_framework true) ∧
  atomic_block (memory_framework true) (printed [header_3] fresh_world)
    ≠ (Returns tt, fresh_rolled_back).
Proof.
  split; [apply memory_never_swallows|].
  apply (atomic_block_never_returns (memory_framework true)).
  apply memory_never_swallows.
Defined.

Lemma failure_modes_on_interrupt :
  test_transaction_signal (memory_framework true) interrupted_world
    = (Raises keyboard_interrupt, interrupted_left) ∧
  ((atomic_block (memory_framework true) (printed [header_3] interrupted_world)
      = (Raises keyboard_interrupt, interrupted_left) ∧
    isinstance_Exception (exc_cls keyboard_interrupt) = false) ∨
   (∃ w1,
      (atomic_block (memory_framework true)
         (printed [header_3] interrupted_world) = (Returns tt, w1) ∨
       ∃ e0 w0,
         atomic_block (memory_framework true)
           (printed [header_3] interrupted_world) = (Raises e0, w0) ∧
         isinstance_Exception (exc_cls e0) = true ∧
         w1 = printed [caught_line e0] w0) ∧
      Profile_objects_count (memory_framework true) w1
        = (Raises keyboard_interrupt, interrupted_left))).
Proof.
  assert (test_transaction_signal (memory_framework true) interrupted_world
          = (Raises keyboard_interrupt, interrupted_left))
    as H by (vm_compute; reflexivity).
  split; [exact H|].
  exact (test_transaction_signal_failure_modes (memory_framework true)
           interrupted_world keyboard_interrupt interrupted_left H).
Defined.

Lemma test_thread_signal_second_call :
  User_objects_create (memory_framework true)
    (post_save_receivers (memory_framework true)) "thread_test_user"
    (printed [header_2; main_thread_line (ident world_after_one_run)]
       world_after_one_run)
    = (Raises username_taken,
       printed [header_2; main_thread_line 140735] world_after_one_run) ∧
  test_thread_signal (memory_framework true) world_after_one_run
    = (Raises username_taken,
       printed [header_2; main_thread_line 140735] world_after_one_run).
Proof.
  assert (User_objects_create (memory_framework true)
            (post_save_receivers (memory_framework true)) "thread_test_user"
            (printed [header_2; main_thread_line (ident world_after_one_run)]
               world_after_one_run)
          = (Raises username_taken,
             printed [header_2; main_thread_line 140735] world_after_one_run))
    as H by (vm_compute; reflexivity).
  split; [exact H|].
  exact (proj2 (proj1 (test_thread_signal_outcomes (memory_framework true)
                         world_after_one_run) _ _) H).
Defined.

Lemma module_main_imported_as_app :
  "yourapp.django_signal_tests" ≠ "__main__" ∧
  module_main "yourapp.django_signal_tests" idle_world
    = (Returns tt, idle_world).
Proof.
  assert ("yourapp.django_signal_tests" ≠ "__main__") as H by discriminate.
  split; [exact H|].
  exact (module_main_imported "yourapp.django_signal_tests" idle_world H).
Defined.

Lemma list_of_after_one_next :
  3 ≤ 3 ∧
  ∃ r g w1,
    (r ← Rectangle 10 5; g ← Rectangle___iter__ r; mret (r, g)) idle_world
      = (Returns (r, g), w1) ∧
    (list_of 3 g (next_times 1 g w1)).1 = Returns [ {[ "width" := 5%Z ]} ].
Proof.
  split; [lia|].
  destruct (list_of_gives_the_rest idle_world 10 5 1 3 ltac:(lia))
    as (r & g & w1 & Hrun & Hrest & _).
  exists r, g, w1. split; [exact Hrun|exact Hrest].
Defined.

Lemma printable_small (n : Z) : (Z.abs n < 10 ^ 4)%Z → printable n.
Proof.
  intros Hn. unfold printable, int_max_str_digits.
  eapply Z.lt_le_trans; [exact Hn|].
  apply Z.pow_le_mono_r; lia.
Qed.



Lemma test_synchronous_signal_on_fresh_store :
  interrupt fresh_world = false ∧ store_ok (ext fresh_world) ∧
  ("sync_test_user" ∉ username <$> auth_user (db (ext fresh_world))) ∧
  ∃ w',
    test_synchronous_signal (memory_framework true) fresh_world
      = (Returns tt, w') ∧
    clock w' = 3%Z ∧
    auth_user (db (ext w')) = [mkUser 1 "sync_test_user"] ∧
    profile (db (ext w')) = [1%Z].
Proof.
  split_and!; [reflexivity|apply fresh_world_ok|apply fresh_world_free|].
  destruct (test_synchronous_signal_waits_for_receivers true fresh_world
              eq_refl fresh_world_ok (fresh_world_free _))
    as (w' & Hrun & _ & Hclock & Husers & Hprofiles).
  exists w'. split_and!; [exact Hrun|exact Hclock|exact Husers|exact Hprofiles].
Defined.

Lemma test_thread_signal_on_fresh_store :
  interrupt fresh_world = false ∧ store_ok (ext fresh_world) ∧
  ("thread_test_user" ∉ username <$> auth_user (db (ext fresh_world))) ∧
  ∃ w',
    test_thread_signal (memory_framework true) fresh_world
      = (Returns tt, w') ∧
    stdout w' =
      [ header_2;
        "[Main] Thread ID: " +:+ pretty 140735%Z;
        "[Signal] Started processing...";
        "[Signal] Finished processing.";
        "[Signal] Thread ID: " +:+ pretty 140735%Z;
        "[Signal] Profile created inside same transaction";
        same_thread_line ].
Proof.
  split_and!; [reflexivity|apply fresh_world_ok|apply fresh_world_free|].
  destruct (test_thread_signal_same_thread true fresh_world
              eq_refl fresh_world_ok (fresh_world_free _))
    as (w' & Hrun & Hout & _).
  exists w'. split; [exact Hrun|exact Hout].
Defined.

Lemma test_transaction_signal_twice_on_fresh_store :
  interrupt fresh_world = false ∧ store_ok (ext fresh_world) ∧
  ("rollback_user" ∉ username <$> auth_user (db (ext fresh_world))) ∧
  ∃ w1 w2,
    test_transaction_signal (memory_framework true) fresh_world
      = (Returns tt, w1) ∧
    test_transaction_signal (memory_framework true) w1 = (Returns tt, w2) ∧
    auth_user (db (ext w2)) = [] ∧
    profile (db (ext w2)) = [].
Proof.
  split_and!; [reflexivity|apply fresh_world_ok|apply fresh_world_free|].
  destruct (test_transaction_signal_repeatable true fresh_world
              eq_refl fresh_world_ok (fresh_world_free _))
    as (w1 & w2 & Hrun1 & Hrun2 & _ & Husers & Hprofiles).
  exists w1, w2.
  split_and!; [exact Hrun1|exact Hrun2|exact Husers|].
  exact (proj2 (Hprofiles eq_refl)).
Defined.

Lemma run_all_tests_on_fresh_store :
  3 ≤ 3 ∧ interrupt fresh_world = false ∧ store_ok (ext fresh_world) ∧
  ("sync_test_user" ∉ username <$> auth_user (db (ext fresh_world))) ∧
  ("thread_test_user" ∉ username <$> auth_user (db (ext fresh_world))) ∧
  ("rollback_user" ∉ username <$> auth_user (db (ext fresh_world))) ∧
  ∃ w',
    run_all_tests (memory_framework true) 3 fresh_world = (Returns tt, w') ∧
    stdout w' = full_run_lines 140735 2 ∧
    clock w' = 9%Z.
Proof.
  split_and!; [lia|reflexivity|apply fresh_world_ok|apply fresh_world_free..|].
  destruct (run_all_tests_transcript true fresh_world 3 ltac:(lia)
              eq_refl fresh_world_ok (fresh_world_free _)
              (fresh_world_free _) (fresh_world_free _))
    as (w' & n & Hrun & Hout & Hn & _ & Hclock).
  exists w'. split_and!; [exact Hrun| |exact Hclock].
  rewrite Hout, Hn. reflexivity.
Defined.

Lemma run_all_tests_twice_on_fresh_store :
  3 ≤ 3 ∧ interrupt fresh_world = false ∧ store_ok (ext fresh_world) ∧
  ("sync_test_user" ∉ username <$> auth_user (db (ext fresh_world))) ∧
  ("thread_test_user" ∉ username <$> auth_user (db (ext fresh_world))) ∧
  ("rollback_user" ∉ username <$> auth_user (db (ext fresh_world))) ∧
  ∃ w1,
    run_all_tests (memory_framework false) 3 fresh_world = (Returns tt, w1) ∧
    (run_all_tests (memory_framework false) 3 w1).1 = Raises username_taken.
Proof.
  split_and!; [lia|reflexivity|apply fresh_world_ok|apply fresh_world_free..|].
  destruct (run_all_tests_not_rerunnable false fresh_world 3 ltac:(lia)
              eq_refl fresh_world_ok (fresh_world_free _)
              (fresh_world_free _) (fresh_world_free _))
    as (w1 & Hrun1 & Hrun2).
  exists w1. split; [exact Hrun1|]. by rewrite Hrun2.
Defined.

Lemma test_synchronous_signal_on_interrupt :
  interrupt interrupted_world = true ∧
  own_connection (ext interrupted_world) = false ∧
  ("sync_test_user" ∉ username <$> auth_user (db (ext interrupted_world))) ∧
  ∃ w',
    test_synchronous_signal (memory_framework true) interrupted_world
      = (Raises keyboard_interrupt, w') ∧
    auth_user (db (ext w')) = [mkUser 1 "sync_test_user"] ∧
    profile (db (ext w')) = [].
Proof.
  split_and!; [reflexivity|reflexivity|apply not_elem_of_nil|].
  destruct (test_synchronous_signal_interrupted true interrupted_world
              eq_refl eq_refl (not_elem_of_nil _))
    as (w' & Hrun & _ & _ & Husers & Hprofiles).
  exists w'. split_and!; [exact Hrun|exact Husers|exact Hprofiles].
Defined.

Lemma test_transaction_signal_on_interrupt :
  interrupt interrupted_world = true ∧
  own_connection (ext interrupted_world) = false ∧
  ("rollback_user" ∉ username <$> auth_user (db (ext interrupted_world))) ∧
  ∃ w',
    test_transaction_signal (memory_framework false) interrupted_world
      = (Raises keyboard_interrupt, w') ∧
    db (ext w') = Tables [] [] ∧
    savepoints (ext w') = [].
Proof.
  split_and!; [reflexivity|reflexivity|apply not_elem_of_nil|].
  destruct (test_transaction_signal_interrupted false interrupted_world
              eq_refl eq_refl (not_elem_of_nil _))
    as (w' & Hrun & _ & Hdb & Hsp).
  exists w'. split_and!; [exact Hrun|exact Hdb|exact Hsp].
Defined.

Lemma create_profile_twice_for_one_user :
  (mkUser 1 "sync_test_user" ∈ auth_user (db (ext world_with_user_only))) ∧
  (pk (mkUser 1 "sync_test_user")
     ∉ profile (db (ext world_with_user_only))) ∧
  ∃ w1 e,
    create_profile (memory_framework true) (mkUser 1 "sync_test_user")
      world_with_user_only = (Returns tt, w1) ∧
    profile (db (ext w1)) = [1%Z] ∧
    create_profile (memory_framework true) (mkUser 1 "sync_test_user") w1
      = (Raises e, w1) ∧
    exc_cls e = IntegrityError_.
Proof.
  assert (mkUser 1 "sync_test_user"
            ∈ auth_user (db (ext world_with_user_only)))
    as Hin by apply list_elem_of_here.
  split_and!; [exact Hin|apply not_elem_of_nil|].
  destruct (create_profile_once_per_user true world_with_user_only
              (mkUser 1 "sync_test_user") Hin (not_elem_of_nil _))
    as (w1 & e & Hrun & Hprofiles & _ & _ & Hagain & Hcls).
  exists w1, e. split_and!; [exact Hrun|exact Hprofiles|exact Hagain|exact Hcls].
Defined.

(** ** The module run as the main program *)



